(** * Personal Productivity Dashboard backend: a shallow embedding

    The FastAPI handlers of [controllers/*.py], the SQLAlchemy models of
    [models/*.py] and the pydantic schemas of [serializers/*.py] are
    embedded as pure functions.

    - A table is the list of its rows, in heap order; a handler receives the
      rows and returns its result together with the rows it leaves behind
      (after [db.commit()], or unchanged after [db.rollback()]).
    - A Python exception is a value of [Exn]; a call that may raise returns
      a [Result].
    - A Python [dict] with string keys is a [gmap string Value]; a model
      attribute holds a [Value], as a Python attribute does.
    - Time is read from the wall clock by [datetime.now(timezone.utc)];
      every reading is an explicit argument, in microseconds since the
      epoch.  Two readings inside one call are two arguments.
    - The storage engine, the password hashing library and the JWT library
      are collaborators outside the repository: what the handlers need of
      them is collected in the class [Collaborators]. *)

From Stdlib Require Import ZArith String Ascii List Bool Lia.
From stdpp Require Import base option list gmap strings sorting pretty.

Open Scope string_scope.
Open Scope list_scope.
Open Scope Z_scope.

(** * Python values and strings *)

Module Py.

Inductive Value :=
| VNone
| VBool (b : bool)
| VInt (z : Z)
| VStr (s : string)
| VDate (d : Z)
| VDateTime (t : Z).

#[global] Instance Value_eq_dec : EqDecision Value.
Proof. solve_decision. Defined.

(** [bool(v)]: what [if v:] tests. *)
Definition truthy (v : Value) : bool :=
  match v with
  | VNone => false
  | VBool b => b
  | VInt z => negb (z =? 0)
  | VStr s => negb (String.eqb s "")
  | VDate _ | VDateTime _ => true
  end.

(** [dict] literals. *)
Definition dict (items : list (string * Value)) : gmap string Value :=
  list_to_map items.

Definition is_upper (c : ascii) : bool :=
  let n := N_of_ascii c in ((65 <=? n) && (n <=? 90))%N.
Definition is_lower (c : ascii) : bool :=
  let n := N_of_ascii c in ((97 <=? n) && (n <=? 122))%N.

Definition lower_char (c : ascii) : ascii :=
  if is_upper c then ascii_of_N (N_of_ascii c + 32) else c.
Definition upper_char (c : ascii) : ascii :=
  if is_lower c then ascii_of_N (N_of_ascii c - 32) else c.

(** [str.lower()] and [str.upper()] on the ASCII letters; the other
    bytes are kept. *)
Fixpoint lower (s : string) : string :=
  match s with
  | EmptyString => EmptyString
  | String c s' => String (lower_char c) (lower s')
  end.

Fixpoint upper (s : string) : string :=
  match s with
  | EmptyString => EmptyString
  | String c s' => String (upper_char c) (upper s')
  end.

(** [needle in hay] on strings. *)
Fixpoint contains (needle hay : string) : bool :=
  String.prefix needle hay ||
  match hay with
  | EmptyString => false
  | String _ hay' => contains needle hay'
  end.

(** [s.endswith(suffix)] *)
Fixpoint endswith (suffix s : string) : bool :=
  String.eqb suffix s ||
  match s with
  | EmptyString => false
  | String _ s' => endswith suffix s'
  end.

(** [str(n)] for an [int]. *)
Definition str_int (n : Z) : string := pretty n.

(** [timedelta(days=d)], in microseconds. *)
Definition timedelta_days (d : Z) : Z := d * 86400 * 1000000.

End Py.
Export Py.

(** * Exceptions *)

Inductive Exn :=
| HTTPException (status_code : Z) (detail : string)
| ProgrammingError (orig : string)
| IntegrityError (orig : string)
| SQLAlchemyError (name msg : string)
| Exception (name msg : string).

(** [type(e).__name__] *)
Definition type_name (e : Exn) : string :=
  match e with
  | HTTPException _ _ => "HTTPException"
  | ProgrammingError _ => "ProgrammingError"
  | IntegrityError _ => "IntegrityError"
  | SQLAlchemyError name _ => name
  | Exception name _ => name
  end.

(** [str(e.orig) if hasattr(e, 'orig') else str(e)], the text [create_user]
    reads: for the database errors the driver's text [e.orig], for the
    others [str(e)]. *)
Definition str_exn (e : Exn) : string :=
  match e with
  | HTTPException _ detail => detail
  | ProgrammingError orig => orig
  | IntegrityError orig => orig
  | SQLAlchemyError _ msg => msg
  | Exception _ msg => msg
  end.

Inductive Result (A : Type) :=
| Return (a : A)
| Raise (e : Exn).
Arguments Return {A} a.
Arguments Raise {A} e.

Definition HTTP_200_OK := 200.
Definition HTTP_201_CREATED := 201.
Definition HTTP_401_UNAUTHORIZED := 401.
Definition HTTP_403_FORBIDDEN := 403.
Definition HTTP_404_NOT_FOUND := 404.
Definition HTTP_422_UNPROCESSABLE_ENTITY := 422.
Definition HTTP_500_INTERNAL_SERVER_ERROR := 500.

(** The status the client sees: [ok] for a returned value, the status of
    an [HTTPException], and 500 from [global_exception_handler] of
    [main.py] for anything else that escapes. *)
Definition status_of {A} (ok : Z) (r : Result A) : Z :=
  match r with
  | Return _ => ok
  | Raise (HTTPException code _) => code
  | Raise _ => HTTP_500_INTERNAL_SERVER_ERROR
  end.

(** * Collaborators outside the repository *)

(** A constraint declared by a model and enforced by the storage engine. *)
Inductive Violation :=
| NotNull (table column : string)
| Unique (table column value : string).

Class Collaborators := {
  (** [config.environment.secret] *)
  secret : string;
  (** [jwt.encode(payload, secret, algorithm="HS256")] *)
  jwt_encode : gmap string Value → string → Result string;
  (** [pwd_context.hash(password)]; the salt is drawn by the call *)
  bcrypt_hash : string → string → Result string;
  (** bcrypt's check of a password against a hash that carries a bcrypt
      prefix; it raises on a hash it cannot parse *)
  bcrypt_verify : string → string → Result bool;
  (** the text of the driver's error for a violated constraint *)
  pg_error_text : Violation → string;
  (** [str(e)] of the SQLAlchemy error that wraps a driver error whose
      text is [orig]: the driver's text with what SQLAlchemy puts around
      it (the driver's exception class, the statement, its parameters) *)
  sqlalchemy_str : string → string
}.

(** [str(e)], the text the handlers of tasks, habits, notes and daily
    goals put into the detail of their 500. *)
Definition str_error `{Collaborators} (e : Exn) : string :=
  match e with
  | ProgrammingError orig | IntegrityError orig => sqlalchemy_str orig
  | _ => str_exn e
  end.

(** [pwd_context = CryptContext(schemes=["bcrypt"], deprecated="auto")].

    passlib identifies a bcrypt hash by its prefix. *)
Definition bcrypt_ident_values : list string :=
  ["$2$"; "$2a$"; "$2x$"; "$2y$"; "$2b$"].

Definition bcrypt_identify (hash : string) : bool :=
  existsb (λ ident, String.prefix ident hash) bcrypt_ident_values.

Section PwdContext.
Context `{Collaborators}.

(** [pwd_context.hash(password)] *)
Definition pwd_context_hash (salt password : string) : Result string :=
  bcrypt_hash salt password.

(** [pwd_context.verify(secret, hash)], as passlib's [CryptContext.verify]
    has it: a [None] hash never matches, a hash of no configured scheme
    raises [UnknownHashError], and an identified hash is handed to the
    scheme. *)
Definition pwd_context_verify (password : string) (hash : option string)
  : Result bool :=
  match hash with
  | None => Return false
  | Some h =>
      if bcrypt_identify h then bcrypt_verify password h
      else Raise (Exception "UnknownHashError" "hash could not be identified")
  end.

End PwdContext.

(** * models/user.py *)

Module UserRole.
Definition CUSTOMER : string := "CUSTOMER".
Definition ADMIN : string := "ADMIN".
End UserRole.

Module User.

Record UserModel := {
  id : Z;
  username : string;
  email : string;
  password_hash : option string;
  role : option string
}.

(** [self.role] in a condition: [None] and the empty string are false. *)
Definition role_truthy (r : option string) : bool :=
  match r with
  | None => false
  | Some s => truthy (VStr s)
  end.

Section Methods.
Context `{Collaborators}.

Definition set_password (self : UserModel) (salt password : string)
  : Result UserModel :=
  match pwd_context_hash salt password with
  | Raise e => Raise e
  | Return h =>
      Return {| id := id self; username := username self; email := email self;
                password_hash := Some h; role := role self |}
  end.

Definition verify_password (self : UserModel) (password : string)
  : Result bool :=
  pwd_context_verify password (password_hash self).

(** The payload of [generate_token].  The dictionary display evaluates
    ["exp"] first, so [now_exp] is the first reading of the clock and
    [now_iat] the second. *)
Definition token_payload (self : UserModel) (now_exp now_iat : Z)
  : gmap string Value :=
  let role_value :=
    match role self with
    | Some r => if role_truthy (Some r) then r else "CUSTOMER"
    | None => "CUSTOMER"
    end in
  dict [ ("exp", VDateTime (now_exp + timedelta_days 1));
         ("iat", VDateTime now_iat);
         ("sub", VStr (str_int (id self)));
         ("role", VStr role_value) ].

Definition generate_token (self : UserModel) (now_exp now_iat : Z)
  : Result string :=
  jwt_encode (token_payload self now_exp now_iat) secret.

End Methods.

Definition is_admin (self : UserModel) : bool :=
  bool_decide (role self = Some UserRole.ADMIN)
  || bool_decide (role self = Some "ADMIN").

Definition is_customer (self : UserModel) : bool :=
  bool_decide (role self = Some UserRole.CUSTOMER)
  || bool_decide (role self = Some "CUSTOMER").

(** [current_user.role != UserRole.ADMIN.value], the test every
    controller writes. *)
Definition role_ne_admin (current_user : UserModel) : bool :=
  negb (bool_decide (role current_user = Some UserRole.ADMIN)).

End User.
Export User(UserModel).

(** PyJWT writes a [datetime] claim as a NumericDate: whole seconds since
    the epoch ([timegm(utctimetuple())]). *)
Definition numeric_date (t : Z) : Z := t `div` 1000000.

(** * serializers/user.py *)

Module UserSerializers.

(** [UserSchema]; [role] is [Optional[str]] with default ["CUSTOMER"], so
    the handler sees a string or [None]. *)
Record UserSchema := {
  username : string;
  email : string;
  password : string;
  role : option string
}.

Record UserLogin := {
  login_username : string;
  login_password : string
}.

End UserSerializers.

(** * controllers/users.py *)

Module Users.
Import UserSerializers.

(** [db.query(UserModel).filter((username == u) | (email == e)).first()] *)
Definition query_username_or_email (db : list UserModel) (u e : string)
  : option UserModel :=
  find (λ row, String.eqb (User.username row) u || String.eqb (User.email row) e) db.

(** [db.query(UserModel).filter(UserModel.username == u).first()] *)
Definition query_username (db : list UserModel) (u : string) : option UserModel :=
  find (λ row, String.eqb (User.username row) u) db.

(** The role [create_user] stores: the default when [user.role] is [None]
    or empty, the upper-cased string otherwise ([user.role] is a [str], so
    the [isinstance] test holds). *)
Definition user_role (user : UserSchema) : string :=
  if User.role_truthy (role user)
  then match role user with
       | Some r => upper r
       | None => UserRole.CUSTOMER
       end
  else UserRole.CUSTOMER.

Section Handlers.
Context `{Collaborators}.

(** [db.add(new_user); db.commit()] on the rows the table holds at commit
    time: the two [unique=True] columns of [UserModel] are enforced by the
    storage engine, which reports the violated constraint in its error. *)
Definition add_commit (new_user : UserModel) (rows : list UserModel)
  : Result (list UserModel) :=
  if existsb (λ row, String.eqb (User.username row) (User.username new_user)) rows
  then Raise (IntegrityError
                (pg_error_text (Unique "users" "username" (User.username new_user))))
  else if existsb (λ row, String.eqb (User.email row) (User.email new_user)) rows
  then Raise (IntegrityError
                (pg_error_text (Unique "users" "email" (User.email new_user))))
  else Return (rows ++ [new_user]).

(** The [except] clauses of [create_user], in their order. *)
Definition create_user_except (e : Exn) : Result (gmap string Value) :=
  match e with
  | ProgrammingError _ =>
      let error_msg := str_exn e in
      let error_type := type_name e in
      if contains "role" (lower error_msg) || contains "column" (lower error_msg)
      then Return (dict [
        ("error", VStr "Database schema error");
        ("message", VStr "The 'role' column is missing from the users table. Please run the migration script.");
        ("backend_error", VStr error_msg);
        ("error_type", VStr error_type);
        ("fix_instruction", VStr "Run: python fix_role_column.py") ])
      else Return (dict [
        ("error", VStr "Database schema error");
        ("message", VStr ("Database schema issue detected: " +:+ error_msg));
        ("backend_error", VStr error_msg);
        ("error_type", VStr error_type) ])
  | IntegrityError _ =>
      let error_msg := str_exn e in
      let error_type := type_name e in
      if contains "username" (lower error_msg)
      then Return (dict [
        ("error", VStr "Username already exists");
        ("message", VStr "A user with this username already exists.");
        ("backend_error", VStr error_msg) ])
      else if contains "email" (lower error_msg)
      then Return (dict [
        ("error", VStr "Email already exists");
        ("message", VStr "A user with this email already exists.");
        ("backend_error", VStr error_msg) ])
      else Return (dict [
        ("error", VStr "Database constraint error");
        ("message", VStr "Registration failed due to a database constraint violation.");
        ("backend_error", VStr error_msg);
        ("error_type", VStr error_type) ])
  | SQLAlchemyError _ _ =>
      let error_msg := str_exn e in
      let error_type := type_name e in
      Return (dict [
        ("error", VStr "Database error");
        ("message", VStr "Registration failed due to a database error. Please try again later.");
        ("backend_error", VStr error_msg);
        ("error_type", VStr error_type) ])
  | HTTPException _ _ => Raise e
  | Exception _ _ =>
      let error_msg := str_exn e in
      let error_type := type_name e in
      Return (dict [
        ("error", VStr "Registration failed");
        ("message", VStr ("An unexpected error occurred: " +:+ error_msg));
        ("backend_error", VStr error_msg);
        ("error_type", VStr error_type) ])
  end.

(** [POST /register].

    [db] are the rows the pre-insert query sees; [concurrent] are the rows
    other requests commit between that query and this request's commit
    (none when the request runs alone); [new_id] is the key the sequence
    hands out.  The second component is the table afterwards. *)
Definition create_user (user : UserSchema) (salt : string) (new_id : Z)
    (now_exp now_iat : Z) (db concurrent : list UserModel)
  : Result (gmap string Value) * list UserModel :=
  let at_commit := db ++ concurrent in
  match query_username_or_email db (username user) (email user) with
  | Some existing_user =>
      if String.eqb (User.username existing_user) (username user)
      then (Return (dict [
              ("error", VStr "Username already exists");
              ("message", VStr "A user with this username already exists. Please choose a different username.") ]),
            at_commit)
      else (Return (dict [
              ("error", VStr "Email already exists");
              ("message", VStr "A user with this email already exists. Please use a different email.") ]),
            at_commit)
  | None =>
      let user_role := user_role user in
      let new_user :=
        {| User.id := new_id;
           User.username := username user;
           User.email := email user;
           User.password_hash := None;
           User.role := Some user_role |} in
      match User.set_password new_user salt (password user) with
      | Raise e => (create_user_except e, at_commit)
      | Return new_user =>
          match add_commit new_user at_commit with
          | Raise e => (create_user_except e, at_commit)
          | Return rows =>
              let token :=
                match User.generate_token new_user now_exp now_iat with
                | Return t => Some t
                | Raise _ => None
                end in
              let response_data := dict [
                ("message", VStr "User created successfully");
                ("id", VInt (User.id new_user));
                ("username", VStr (User.username new_user));
                ("email", VStr (User.email new_user));
                ("role", VStr (if User.role_truthy (User.role new_user)
                               then default "CUSTOMER" (User.role new_user)
                               else "CUSTOMER")) ] in
              let response_data :=
                match token with
                | Some t =>
                    if truthy (VStr t)
                    then <["token" := VStr t]> response_data
                    else response_data
                | None => response_data
                end in
              (Return response_data, rows)
          end
      end
  end.

(** [POST /login] *)
Definition login (user : UserLogin) (now_exp now_iat : Z) (db : list UserModel)
  : Result (gmap string Value) :=
  let body : Result (gmap string Value) :=
    match query_username db (login_username user) with
    | None =>
        Raise (HTTPException HTTP_401_UNAUTHORIZED "Invalid username or password")
    | Some db_user =>
        match User.verify_password db_user (login_password user) with
        | Raise e => Raise e
        | Return false =>
            Raise (HTTPException HTTP_401_UNAUTHORIZED "Invalid username or password")
        | Return true =>
            match User.generate_token db_user now_exp now_iat with
            | Raise e => Raise e
            | Return token =>
                let user_role :=
                  if User.role_truthy (User.role db_user)
                  then default UserRole.CUSTOMER (User.role db_user)
                  else UserRole.CUSTOMER in
                Return (dict [
                  ("token", VStr token);
                  ("message", VStr "Login successful");
                  ("role", VStr user_role) ])
            end
        end
    end in
  match body with
  | Return r => Return r
  | Raise (HTTPException code detail) => Raise (HTTPException code detail)
  | Raise _ =>
      Raise (HTTPException HTTP_500_INTERNAL_SERVER_ERROR
               "Login failed due to an internal error")
  end.

End Handlers.

End Users.

(** * The ORM and the schemas: what the four resource controllers share *)

(** An [Optional] field of an update schema: left unset by the request, or
    set by it, to [None] or to a value. *)
Inductive Field (A : Type) :=
| Unset
| SetTo (v : option A).
Arguments Unset {A}.
Arguments SetTo {A} v.

(** One field of [schema.dict(exclude_unset=True)]. *)
Definition dump {A} (inj : A → Value) (key : string) (f : Field A)
    (d : gmap string Value) : gmap string Value :=
  match f with
  | Unset => d
  | SetTo None => <[key := VNone]> d
  | SetTo (Some a) => <[key := inj a]> d
  end.

(** The value an attribute holds once a set field is assigned to it. *)
Definition assigned {A} (inj : A → Value) (v : option A) : Value :=
  match v with
  | None => VNone
  | Some a => inj a
  end.

(** [for key, value in update_data.items(): setattr(obj, key, value)] *)
Definition setattr_items {Row} (setattr : Row → string → Value → Row)
    (obj : Row) (update_data : gmap string Value) : Row :=
  map_fold (λ key value obj, setattr obj key value) obj update_data.

(** The validation FastAPI runs on declared parameters before the handler
    ([RequestValidationError], answered with 422 by
    [validation_exception_handler] of [main.py]). *)
Definition RequestValidationError : Exn :=
  HTTPException HTTP_422_UNPROCESSABLE_ENTITY "Invalid request data".

Section Session.
Context {Row : Type} (row_id : Row → Z).

(** [db.query(Model).filter(Model.id == i).first()] *)
Definition query_get (db : list Row) (i : Z) : option Row :=
  find (λ row, row_id row =? i) db.

(** [db.add(obj); db.commit()] *)
Definition add_commit (obj : Row) (db : list Row) : list Row :=
  db ++ [obj].

(** [db.commit()] of a changed object: the row with its key is rewritten. *)
Definition update_commit (obj : Row) (db : list Row) : list Row :=
  map (λ row, if row_id row =? row_id obj then obj else row) db.

(** [db.delete(obj); db.commit()] *)
Definition delete_commit (obj : Row) (db : list Row) : list Row :=
  List.filter (λ row, negb (row_id row =? row_id obj)) db.

(** [.limit(limit).offset(offset)]: the offset is skipped first. *)
Definition limit_offset (limit offset : Z) (rows : list Row) : list Row :=
  take (Z.to_nat limit) (drop (Z.to_nat offset) rows).

End Session.

(** [.order_by(Model.created_at.desc())] *)
Definition newer_first {Row} (created_at : Row → Z) (a b : Row) : Prop :=
  created_at b ≤ created_at a.

#[global] Instance newer_first_dec {Row} (created_at : Row → Z) (a b : Row)
  : Decision (newer_first created_at a b).
Proof. unfold newer_first. apply _. Defined.

(** The rows newest first.  The statement orders by [created_at] alone:
    among rows created at the same time the engine is free, and the sort
    below keeps one order of them; where creation times differ the order
    is the only one there is. *)
Definition order_by_desc {Row} (created_at : Row → Z) (rows : list Row)
  : list Row :=
  merge_sort (newer_first created_at) rows.

(** * SQL [ILIKE] *)

Module Sql.

Inductive Tok :=
| AnySeq
| AnyChar
| Lit (c : ascii).

(** A [LIKE] pattern: [%] stands for any sequence, [_] for any one
    character, and a backslash makes the next character literal.  (A
    pattern that ends in a lone backslash is an error for the engine; the
    controllers' patterns end in [%].) *)
Fixpoint like_pattern (p : string) : list Tok :=
  match p with
  | EmptyString => []
  | String c p' =>
      if Ascii.eqb c "%" then AnySeq :: like_pattern p'
      else if Ascii.eqb c "_" then AnyChar :: like_pattern p'
      else if Ascii.eqb c "\" then
        match p' with
        | EmptyString => [Lit c]
        | String c' p'' => Lit c' :: like_pattern p''
        end
      else Lit c :: like_pattern p'
  end.

Fixpoint like_match (p : list Tok) : string → bool :=
  match p with
  | [] => λ s, match s with EmptyString => true | String _ _ => false end
  | AnySeq :: p' =>
      fix skip (s : string) : bool :=
        like_match p' s ||
        match s with
        | EmptyString => false
        | String _ s' => skip s'
        end
  | AnyChar :: p' =>
      λ s, match s with
           | EmptyString => false
           | String _ s' => like_match p' s'
           end
  | Lit c :: p' =>
      λ s, match s with
           | EmptyString => false
           | String d s' => Ascii.eqb c d && like_match p' s'
           end
  end.

(** [column.ilike(pattern)] in a [WHERE]: letters match without regard to
    case; a [NULL] column does not pass. *)
Definition ilike (column : Value) (pattern : string) : bool :=
  match column with
  | VStr s => like_match (like_pattern (lower pattern)) (lower s)
  | _ => false
  end.

End Sql.

(** * models/task.py, serializers/task.py *)

Module Task.

Record TaskModel := {
  id : Z;
  title : Value;
  description : Value;
  due_date : Value;
  is_completed : Value;
  created_at : Z;
  user_id : Z
}.

Record TaskCreate := {
  create_title : string;
  create_description : string;
  create_due_date : option Z
}.

Record TaskUpdate := {
  update_title : Field string;
  update_description : Field string;
  update_due_date : Field Z;
  update_is_completed : Field bool
}.

(** [task_update.dict(exclude_unset=True)] *)
Definition TaskUpdate_dict (u : TaskUpdate) : gmap string Value :=
  dump VBool "is_completed" (update_is_completed u)
    (dump VDateTime "due_date" (update_due_date u)
       (dump VStr "description" (update_description u)
          (dump VStr "title" (update_title u) ∅))).

(** [setattr(db_task, key, value)] for the columns an update schema can
    name; any other name is an attribute the ORM does not map. *)
Definition setattr (obj : TaskModel) (key : string) (value : Value) : TaskModel :=
  if String.eqb key "title" then
    {| id := id obj; title := value; description := description obj;
       due_date := due_date obj; is_completed := is_completed obj;
       created_at := created_at obj; user_id := user_id obj |}
  else if String.eqb key "description" then
    {| id := id obj; title := title obj; description := value;
       due_date := due_date obj; is_completed := is_completed obj;
       created_at := created_at obj; user_id := user_id obj |}
  else if String.eqb key "due_date" then
    {| id := id obj; title := title obj; description := description obj;
       due_date := value; is_completed := is_completed obj;
       created_at := created_at obj; user_id := user_id obj |}
  else if String.eqb key "is_completed" then
    {| id := id obj; title := title obj; description := description obj;
       due_date := due_date obj; is_completed := value;
       created_at := created_at obj; user_id := user_id obj |}
  else obj.

Section Flush.
Context `{Collaborators}.

(** The [nullable=False] columns of [TaskModel], checked when the row is
    written. *)
Definition flush (obj : TaskModel) : Result TaskModel :=
  if decide (title obj = VNone)
  then Raise (IntegrityError (pg_error_text (NotNull "tasks" "title")))
  else if decide (description obj = VNone)
  then Raise (IntegrityError (pg_error_text (NotNull "tasks" "description")))
  else Return obj.

End Flush.

End Task.

(** * controllers/tasks.py *)

Module Tasks.
Import Task.

Section Handlers.
Context `{Collaborators}.

(** [POST /api/tasks/]; [now] is the reading of the clock that the
    [created_at] default takes. *)
Definition create_task (task : TaskCreate) (now new_id : Z)
    (current_user : UserModel) (db : list TaskModel)
  : Result TaskModel * list TaskModel :=
  let new_task :=
    {| id := new_id;
       title := VStr (create_title task);
       description := VStr (create_description task);
       due_date := assigned VDateTime (create_due_date task);
       user_id := User.id current_user;
       is_completed := VBool false;
       created_at := now |} in
  match flush new_task with
  | Return new_task => (Return new_task, add_commit new_task db)
  | Raise e =>
      (Raise (HTTPException HTTP_500_INTERNAL_SERVER_ERROR
                ("Failed to create task: " +:+ str_error e)), db)
  end.

(** [GET /api/tasks/] *)
Definition get_tasks (current_user : UserModel) (completed : option bool)
    (search : option string) (db : list TaskModel) : Result (list TaskModel) :=
  let query := List.filter (λ t, user_id t =? User.id current_user) db in
  let query :=
    match completed with
    | Some c => List.filter (λ t, bool_decide (is_completed t = VBool c)) query
    | None => query
    end in
  let query :=
    match search with
    | Some s =>
        if truthy (VStr s)
        then List.filter (λ t, Sql.ilike (title t) ("%" +:+ s +:+ "%")
                            || Sql.ilike (description t) ("%" +:+ s +:+ "%")) query
        else query
    | None => query
    end in
  Return (order_by_desc created_at query).

(** [GET /api/tasks/{task_id}] *)
Definition get_single_task (task_id : Z) (current_user : UserModel)
    (db : list TaskModel) : Result TaskModel :=
  match query_get id db task_id with
  | None =>
      Raise (HTTPException HTTP_404_NOT_FOUND
               ("Task with id " +:+ str_int task_id +:+ " not found"))
  | Some task =>
      if negb (user_id task =? User.id current_user)
         && User.role_ne_admin current_user
      then Raise (HTTPException HTTP_403_FORBIDDEN "You can only view your own tasks")
      else Return task
  end.

(** [PUT /api/tasks/{task_id}] *)
Definition update_task (task_id : Z) (task_update : TaskUpdate)
    (current_user : UserModel) (db : list TaskModel)
  : Result TaskModel * list TaskModel :=
  match query_get id db task_id with
  | None =>
      (Raise (HTTPException HTTP_404_NOT_FOUND
                ("Task with id " +:+ str_int task_id +:+ " not found")), db)
  | Some db_task =>
      if negb (user_id db_task =? User.id current_user)
         && User.role_ne_admin current_user
      then (Raise (HTTPException HTTP_403_FORBIDDEN
                     "You can only update your own tasks"), db)
      else
        let update_data := TaskUpdate_dict task_update in
        let db_task := setattr_items setattr db_task update_data in
        match flush db_task with
        | Return db_task => (Return db_task, update_commit id db_task db)
        | Raise e =>
            (Raise (HTTPException HTTP_500_INTERNAL_SERVER_ERROR
                      ("Failed to update task: " +:+ str_error e)), db)
        end
  end.

(** [DELETE /api/tasks/{task_id}] *)
Definition delete_task (task_id : Z) (current_user : UserModel)
    (db : list TaskModel) : Result (gmap string Value) * list TaskModel :=
  match query_get id db task_id with
  | None =>
      (Raise (HTTPException HTTP_404_NOT_FOUND
                ("Task with id " +:+ str_int task_id +:+ " not found")), db)
  | Some db_task =>
      if negb (user_id db_task =? User.id current_user)
         && User.role_ne_admin current_user
      then (Raise (HTTPException HTTP_403_FORBIDDEN
                     "You can only delete your own tasks"), db)
      else
        (Return (dict [
           ("message", VStr ("Task with id " +:+ str_int task_id
                             +:+ " has been permanently deleted")) ]),
         delete_commit id db_task db)
  end.

End Handlers.

End Tasks.

(** * models/habit.py, serializers/habit.py *)

Module Habit.

(** [created_at] is a column of the base model; the controllers order by
    it. *)
Record HabitModel := {
  id : Z;
  user_id : Z;
  title : Value;
  description : Value;
  completed_at : Value;
  is_completed : Value;
  created_at : Z
}.

Record HabitCreate := {
  create_title : string;
  create_description : option string
}.

Record HabitUpdate := {
  update_title : Field string;
  update_description : Field string;
  update_is_completed : Field bool
}.

(** [habit_update.dict(exclude_unset=True)] *)
Definition HabitUpdate_dict (u : HabitUpdate) : gmap string Value :=
  dump VBool "is_completed" (update_is_completed u)
    (dump VStr "description" (update_description u)
       (dump VStr "title" (update_title u) ∅)).

Definition setattr (obj : HabitModel) (key : string) (value : Value) : HabitModel :=
  if String.eqb key "title" then
    {| id := id obj; user_id := user_id obj; title := value;
       description := description obj; completed_at := completed_at obj;
       is_completed := is_completed obj; created_at := created_at obj |}
  else if String.eqb key "description" then
    {| id := id obj; user_id := user_id obj; title := title obj;
       description := value; completed_at := completed_at obj;
       is_completed := is_completed obj; created_at := created_at obj |}
  else if String.eqb key "completed_at" then
    {| id := id obj; user_id := user_id obj; title := title obj;
       description := description obj; completed_at := value;
       is_completed := is_completed obj; created_at := created_at obj |}
  else if String.eqb key "is_completed" then
    {| id := id obj; user_id := user_id obj; title := title obj;
       description := description obj; completed_at := completed_at obj;
       is_completed := value; created_at := created_at obj |}
  else obj.

Section Flush.
Context `{Collaborators}.

(** The [nullable=False] column of [HabitModel] that an update can reach. *)
Definition flush (obj : HabitModel) : Result HabitModel :=
  if decide (title obj = VNone)
  then Raise (IntegrityError (pg_error_text (NotNull "habits" "title")))
  else Return obj.

End Flush.

End Habit.

(** * controllers/habits.py *)

Module Habits.
Import Habit.

(** The completion rule of [update_habit], on the dictionary of the
    fields to assign:
<<
    if 'is_completed' in update_data and update_data['is_completed']:
        update_data['completed_at'] = datetime.now(timezone.utc)
    elif 'is_completed' in update_data and not update_data['is_completed']:
        update_data['completed_at'] = None
>> *)
Definition stamp_completion (now : Z) (update_data : gmap string Value)
  : gmap string Value :=
  match update_data !! "is_completed" with
  | Some v =>
      if truthy v
      then <["completed_at" := VDateTime now]> update_data
      else <["completed_at" := VNone]> update_data
  | None => update_data
  end.

Section Handlers.
Context `{Collaborators}.

(** [POST /api/habits/] *)
Definition create_habit (habit : HabitCreate) (now new_id : Z)
    (current_user : UserModel) (db : list HabitModel)
  : Result HabitModel * list HabitModel :=
  let new_habit :=
    {| id := new_id;
       user_id := User.id current_user;
       title := VStr (create_title habit);
       description := assigned VStr (create_description habit);
       is_completed := VBool false;
       completed_at := VNone;
       created_at := now |} in
  match flush new_habit with
  | Return new_habit => (Return new_habit, add_commit new_habit db)
  | Raise e =>
      (Raise (HTTPException HTTP_500_INTERNAL_SERVER_ERROR
                ("Failed to create habit: " +:+ str_error e)), db)
  end.

(** [GET /api/habits/my] *)
Definition get_my_habits (completed : option bool) (current_user : UserModel)
    (db : list HabitModel) : Result (list HabitModel) :=
  let query := List.filter (λ h, user_id h =? User.id current_user) db in
  let query :=
    match completed with
    | Some c => List.filter (λ h, bool_decide (is_completed h = VBool c)) query
    | None => query
    end in
  Return (order_by_desc created_at query).

(** [GET /api/habits/{habit_id}] *)
Definition get_habit (habit_id : Z) (current_user : UserModel)
    (db : list HabitModel) : Result HabitModel :=
  match query_get id db habit_id with
  | None =>
      Raise (HTTPException HTTP_404_NOT_FOUND
               ("Habit with id " +:+ str_int habit_id +:+ " not found"))
  | Some habit =>
      if User.role_ne_admin current_user
         && negb (user_id habit =? User.id current_user)
      then Raise (HTTPException HTTP_403_FORBIDDEN "You can only view your own habits")
      else Return habit
  end.

(** The assignments of [update_habit], from the dictionary on. *)
Definition apply_update (now : Z) (habit : HabitModel)
    (update_data : gmap string Value) : HabitModel :=
  setattr_items setattr habit (stamp_completion now update_data).

(** [PUT /api/habits/{habit_id}]; [now] is the reading of the clock the
    completion rule takes. *)
Definition update_habit (habit_id : Z) (habit_update : HabitUpdate) (now : Z)
    (current_user : UserModel) (db : list HabitModel)
  : Result HabitModel * list HabitModel :=
  match query_get id db habit_id with
  | None =>
      (Raise (HTTPException HTTP_404_NOT_FOUND
                ("Habit with id " +:+ str_int habit_id +:+ " not found")), db)
  | Some habit =>
      if User.role_ne_admin current_user
         && negb (user_id habit =? User.id current_user)
      then (Raise (HTTPException HTTP_403_FORBIDDEN
                     "You can only update your own habits"), db)
      else
        let update_data := HabitUpdate_dict habit_update in
        let habit := apply_update now habit update_data in
        match flush habit with
        | Return habit => (Return habit, update_commit id habit db)
        | Raise e =>
            (Raise (HTTPException HTTP_500_INTERNAL_SERVER_ERROR
                      ("Failed to update habit: " +:+ str_error e)), db)
        end
  end.

(** [DELETE /api/habits/{habit_id}] *)
Definition delete_habit (habit_id : Z) (current_user : UserModel)
    (db : list HabitModel) : Result (gmap string Value) * list HabitModel :=
  match query_get id db habit_id with
  | None =>
      (Raise (HTTPException HTTP_404_NOT_FOUND
                ("Habit with id " +:+ str_int habit_id +:+ " not found")), db)
  | Some habit =>
      if User.role_ne_admin current_user
         && negb (user_id habit =? User.id current_user)
      then (Raise (HTTPException HTTP_403_FORBIDDEN
                     "You can only delete your own habits"), db)
      else
        (Return (dict [
           ("message", VStr ("Habit " +:+ str_int habit_id
                             +:+ " has been deleted successfully")) ]),
         delete_commit id habit db)
  end.

End Handlers.

End Habits.

(** * models/note.py, serializers/note.py *)

Module Note.

(** The columns [models/note.py] declares, with [created_at] of the base
    model ([models/base.py]), by which the controllers order.  Of the base
    model the record carries [created_at] only: the [updated_at] that the
    response schema also reads is not part of it. *)
Record NoteModel := {
  id : Z;
  user_id : Z;
  title : Value;
  content : Value;
  created_at : Z
}.

Record NoteCreate := {
  create_title : string;
  create_content : option string
}.

Record NoteUpdate := {
  update_title : Field string;
  update_content : Field string
}.

(** [note_update.dict(exclude_unset=True)] *)
Definition NoteUpdate_dict (u : NoteUpdate) : gmap string Value :=
  dump VStr "content" (update_content u)
    (dump VStr "title" (update_title u) ∅).

Definition setattr (obj : NoteModel) (key : string) (value : Value) : NoteModel :=
  if String.eqb key "title" then
    {| id := id obj; user_id := user_id obj; title := value;
       content := content obj; created_at := created_at obj |}
  else if String.eqb key "content" then
    {| id := id obj; user_id := user_id obj; title := title obj;
       content := value; created_at := created_at obj |}
  else obj.

Section Flush.
Context `{Collaborators}.

Definition flush (obj : NoteModel) : Result NoteModel :=
  if decide (title obj = VNone)
  then Raise (IntegrityError (pg_error_text (NotNull "notes" "title")))
  else Return obj.

End Flush.

End Note.

(** * controllers/notes.py *)

Module Notes.
Import Note.

Section Handlers.
Context `{Collaborators}.

(** [POST /api/notes] *)
Definition create_note (note : NoteCreate) (now new_id : Z)
    (current_user : UserModel) (db : list NoteModel)
  : Result NoteModel * list NoteModel :=
  let new_note :=
    {| id := new_id;
       user_id := User.id current_user;
       title := VStr (create_title note);
       content := assigned VStr (create_content note);
       created_at := now |} in
  match flush new_note with
  | Return new_note => (Return new_note, add_commit new_note db)
  | Raise e =>
      (Raise (HTTPException HTTP_500_INTERNAL_SERVER_ERROR
                ("Failed to create note: " +:+ str_error e)), db)
  end.

(** [GET /api/notes] *)
Definition get_user_notes (current_user : UserModel) (search : option string)
    (db : list NoteModel) : Result (list NoteModel) :=
  let query := List.filter (λ n, user_id n =? User.id current_user) db in
  let query :=
    match search with
    | Some s =>
        if truthy (VStr s)
        then
          let search_term := "%" +:+ s +:+ "%" in
          List.filter (λ n, Sql.ilike (title n) search_term
                            || Sql.ilike (content n) search_term) query
        else query
    | None => query
    end in
  Return (order_by_desc created_at query).

(** [GET /api/notes/{note_id}] *)
Definition get_note (note_id : Z) (current_user : UserModel)
    (db : list NoteModel) : Result NoteModel :=
  match query_get id db note_id with
  | None =>
      Raise (HTTPException HTTP_404_NOT_FOUND
               ("Note with id " +:+ str_int note_id +:+ " not found"))
  | Some note =>
      if negb (user_id note =? User.id current_user)
         && User.role_ne_admin current_user
      then Raise (HTTPException HTTP_403_FORBIDDEN "You can only view your own notes")
      else Return note
  end.

(** [PUT /api/notes/{note_id}] *)
Definition update_note (note_id : Z) (note_update : NoteUpdate)
    (current_user : UserModel) (db : list NoteModel)
  : Result NoteModel * list NoteModel :=
  match query_get id db note_id with
  | None =>
      (Raise (HTTPException HTTP_404_NOT_FOUND
                ("Note with id " +:+ str_int note_id +:+ " not found")), db)
  | Some note =>
      if negb (user_id note =? User.id current_user)
         && User.role_ne_admin current_user
      then (Raise (HTTPException HTTP_403_FORBIDDEN
                     "You can only update your own notes"), db)
      else
        let update_data := NoteUpdate_dict note_update in
        let note := setattr_items setattr note update_data in
        match flush note with
        | Return note => (Return note, update_commit id note db)
        | Raise e =>
            (Raise (HTTPException HTTP_500_INTERNAL_SERVER_ERROR
                      ("Failed to update note: " +:+ str_error e)), db)
        end
  end.

(** [DELETE /api/notes/{note_id}] *)
Definition delete_note (note_id : Z) (current_user : UserModel)
    (db : list NoteModel) : Result (gmap string Value) * list NoteModel :=
  match query_get id db note_id with
  | None =>
      (Raise (HTTPException HTTP_404_NOT_FOUND
                ("Note with id " +:+ str_int note_id +:+ " not found")), db)
  | Some note =>
      if negb (user_id note =? User.id current_user)
         && User.role_ne_admin current_user
      then (Raise (HTTPException HTTP_403_FORBIDDEN
                     "You can only delete your own notes"), db)
      else
        (Return (dict [
           ("message", VStr ("Note " +:+ str_int note_id
                             +:+ " has been deleted successfully"));
           ("success", VBool true) ]),
         delete_commit id note db)
  end.

End Handlers.

End Notes.

(** * models/daily_goal.py, serializers/daily_goal.py *)

Module DailyGoal.

(** The columns [models/daily_goal.py] declares, with [created_at] of the
    base model.  As for notes, the [updated_at] of the base model is not
    part of the record. *)
Record DailyGoalModel := {
  id : Z;
  title : Value;
  description : Value;
  goal_date : Value;
  is_completed : Value;
  user_id : Z;
  created_at : Z
}.

Record DailyGoalCreate := {
  create_title : string;
  create_description : string;
  create_goal_date : Z
}.

Record DailyGoalUpdate := {
  update_title : Field string;
  update_description : Field string;
  update_goal_date : Field Z;
  update_is_completed : Field bool
}.

(** [goal_update.dict(exclude_unset=True)] *)
Definition DailyGoalUpdate_dict (u : DailyGoalUpdate) : gmap string Value :=
  dump VBool "is_completed" (update_is_completed u)
    (dump VDate "goal_date" (update_goal_date u)
       (dump VStr "description" (update_description u)
          (dump VStr "title" (update_title u) ∅))).

Definition setattr (obj : DailyGoalModel) (key : string) (value : Value)
  : DailyGoalModel :=
  if String.eqb key "title" then
    {| id := id obj; title := value; description := description obj;
       goal_date := goal_date obj; is_completed := is_completed obj;
       user_id := user_id obj; created_at := created_at obj |}
  else if String.eqb key "description" then
    {| id := id obj; title := title obj; description := value;
       goal_date := goal_date obj; is_completed := is_completed obj;
       user_id := user_id obj; created_at := created_at obj |}
  else if String.eqb key "goal_date" then
    {| id := id obj; title := title obj; description := description obj;
       goal_date := value; is_completed := is_completed obj;
       user_id := user_id obj; created_at := created_at obj |}
  else if String.eqb key "is_completed" then
    {| id := id obj; title := title obj; description := description obj;
       goal_date := goal_date obj; is_completed := value;
       user_id := user_id obj; created_at := created_at obj |}
  else obj.

Section Flush.
Context `{Collaborators}.

(** The [nullable=False] columns of [DailyGoalModel] that an update can
    reach. *)
Definition flush (obj : DailyGoalModel) : Result DailyGoalModel :=
  if decide (title obj = VNone)
  then Raise (IntegrityError (pg_error_text (NotNull "daily_goals" "title")))
  else if decide (goal_date obj = VNone)
  then Raise (IntegrityError (pg_error_text (NotNull "daily_goals" "goal_date")))
  else Return obj.

End Flush.

End DailyGoal.

(** * controllers/daily_goals.py *)

Module DailyGoals.
Import DailyGoal.

Section Handlers.
Context `{Collaborators}.

(** The query of [get_daily_goals], for validated [limit] and [offset]. *)
Definition select_daily_goals (current_user : UserModel) (goal_date' : option Z)
    (completed : option bool) (search : option string) (limit offset : Z)
    (db : list DailyGoalModel) : list DailyGoalModel :=
  let query := List.filter (λ g, user_id g =? User.id current_user) db in
  let query :=
    match goal_date' with
    | Some d => List.filter (λ g, bool_decide (goal_date g = VDate d)) query
    | None => query
    end in
  let query :=
    match completed with
    | Some c => List.filter (λ g, bool_decide (is_completed g = VBool c)) query
    | None => query
    end in
  let query :=
    match search with
    | Some s =>
        if truthy (VStr s)
        then
          let search_term := "%" +:+ s +:+ "%" in
          List.filter (λ g, Sql.ilike (title g) search_term
                            || Sql.ilike (description g) search_term) query
        else query
    | None => query
    end in
  limit_offset limit offset (order_by_desc created_at query).

(** [GET /api/daily-goals], with
    [limit: int = Query(20, ge=1, le=100)] and
    [offset: int = Query(0, ge=0)]. *)
Definition get_daily_goals (current_user : UserModel) (goal_date' : option Z)
    (completed : option bool) (search : option string) (limit offset : Z)
    (db : list DailyGoalModel) : Result (list DailyGoalModel) :=
  if (1 <=? limit) && (limit <=? 100) && (0 <=? offset)
  then Return (select_daily_goals current_user goal_date' completed search
                 limit offset db)
  else Raise RequestValidationError.

(** [GET /api/daily-goals/{goal_id}] *)
Definition get_daily_goal (goal_id : Z) (current_user : UserModel)
    (db : list DailyGoalModel) : Result DailyGoalModel :=
  match query_get id db goal_id with
  | None =>
      Raise (HTTPException HTTP_404_NOT_FOUND
               ("Daily goal with id " +:+ str_int goal_id +:+ " not found"))
  | Some goal =>
      if negb (user_id goal =? User.id current_user)
         && User.role_ne_admin current_user
      then Raise (HTTPException HTTP_403_FORBIDDEN
                    "You can only view your own daily goals")
      else Return goal
  end.

(** [POST /api/daily-goals] *)
Definition create_daily_goal (goal : DailyGoalCreate) (now new_id : Z)
    (current_user : UserModel) (db : list DailyGoalModel)
  : Result DailyGoalModel * list DailyGoalModel :=
  let new_goal :=
    {| id := new_id;
       title := VStr (create_title goal);
       description := VStr (create_description goal);
       goal_date := VDate (create_goal_date goal);
       is_completed := VBool false;
       user_id := User.id current_user;
       created_at := now |} in
  match flush new_goal with
  | Return new_goal => (Return new_goal, add_commit new_goal db)
  | Raise e =>
      (Raise (HTTPException HTTP_500_INTERNAL_SERVER_ERROR
                ("Failed to create daily goal: " +:+ str_error e)), db)
  end.

(** [PUT /api/daily-goals/{goal_id}] *)
Definition update_daily_goal (goal_id : Z) (goal_update : DailyGoalUpdate)
    (current_user : UserModel) (db : list DailyGoalModel)
  : Result DailyGoalModel * list DailyGoalModel :=
  match query_get id db goal_id with
  | None =>
      (Raise (HTTPException HTTP_404_NOT_FOUND
                ("Daily goal with id " +:+ str_int goal_id +:+ " not found")), db)
  | Some db_goal =>
      if negb (user_id db_goal =? User.id current_user)
         && User.role_ne_admin current_user
      then (Raise (HTTPException HTTP_403_FORBIDDEN
                     "Not authorized to update this daily goal"), db)
      else
        let update_data := DailyGoalUpdate_dict goal_update in
        let db_goal := setattr_items setattr db_goal update_data in
        match flush db_goal with
        | Return db_goal => (Return db_goal, update_commit id db_goal db)
        | Raise e =>
            (Raise (HTTPException HTTP_500_INTERNAL_SERVER_ERROR
                      ("Failed to update daily goal: " +:+ str_error e)), db)
        end
  end.

(** [DELETE /api/daily-goals/{goal_id}] *)
Definition delete_daily_goal (goal_id : Z) (current_user : UserModel)
    (db : list DailyGoalModel)
  : Result (gmap string Value) * list DailyGoalModel :=
  match query_get id db goal_id with
  | None =>
      (Raise (HTTPException HTTP_404_NOT_FOUND
                ("Daily goal with id " +:+ str_int goal_id +:+ " not found")), db)
  | Some db_goal =>
      if negb (user_id db_goal =? User.id current_user)
         && User.role_ne_admin current_user
      then (Raise (HTTPException HTTP_403_FORBIDDEN
                     "Not authorized to delete this daily goal"), db)
      else
        (Return (dict [
           ("message", VStr ("Daily goal with id " +:+ str_int goal_id
                             +:+ " has been permanently deleted")) ]),
         delete_commit id db_goal db)
  end.

End Handlers.

End DailyGoals.

(** * main.py and the route decorators of the five routers *)

Module Routes.

Inductive Resource := Users | Tasks | Habits | Notes | DailyGoals.

Inductive Method := GET | POST | PUT | DELETE.

Inductive Endpoint :=
| create_user | login
| create_task | get_tasks | get_single_task | update_task | delete_task
| get_all_tasks_admin
| create_habit | get_my_habits | get_all_habits_admin | get_habit
| update_habit | delete_habit | get_habit_stats
| create_note | get_user_notes | get_note | update_note | delete_note
| get_daily_goals | get_daily_goal | create_daily_goal | update_daily_goal
| delete_daily_goal | get_user_daily_goals | get_all_daily_goals_admin.

Definition endpoints : list Endpoint :=
  [ create_user; login;
    create_task; get_tasks; get_single_task; update_task; delete_task;
    get_all_tasks_admin;
    create_habit; get_my_habits; get_all_habits_admin; get_habit;
    update_habit; delete_habit; get_habit_stats;
    create_note; get_user_notes; get_note; update_note; delete_note;
    get_daily_goals; get_daily_goal; create_daily_goal; update_daily_goal;
    delete_daily_goal; get_user_daily_goals; get_all_daily_goals_admin ].

(** The router (controller module) that declares the endpoint. *)
Definition router (e : Endpoint) : Resource :=
  match e with
  | create_user | login => Users
  | create_task | get_tasks | get_single_task | update_task | delete_task
  | get_all_tasks_admin => Tasks
  | create_habit | get_my_habits | get_all_habits_admin | get_habit
  | update_habit | delete_habit | get_habit_stats => Habits
  | create_note | get_user_notes | get_note | update_note | delete_note => Notes
  | get_daily_goals | get_daily_goal | create_daily_goal | update_daily_goal
  | delete_daily_goal | get_user_daily_goals | get_all_daily_goals_admin =>
      DailyGoals
  end.

(** The decorator of the endpoint: [@router.get("/{task_id}")] and so on. *)
Definition route (e : Endpoint) : Method * string :=
  match e with
  | create_user => (POST, "/register")
  | login => (POST, "/login")
  | create_task => (POST, "/")
  | get_tasks => (GET, "/")
  | get_single_task => (GET, "/{task_id}")
  | update_task => (PUT, "/{task_id}")
  | delete_task => (DELETE, "/{task_id}")
  | get_all_tasks_admin => (GET, "/admin/all")
  | create_habit => (POST, "/")
  | get_my_habits => (GET, "/my")
  | get_all_habits_admin => (GET, "/admin/all")
  | get_habit => (GET, "/{habit_id}")
  | update_habit => (PUT, "/{habit_id}")
  | delete_habit => (DELETE, "/{habit_id}")
  | get_habit_stats => (GET, "/stats/my")
  | create_note => (POST, "/notes")
  | get_user_notes => (GET, "/notes")
  | get_note => (GET, "/notes/{note_id}")
  | update_note => (PUT, "/notes/{note_id}")
  | delete_note => (DELETE, "/notes/{note_id}")
  | get_daily_goals => (GET, "/daily-goals")
  | get_daily_goal => (GET, "/daily-goals/{goal_id}")
  | create_daily_goal => (POST, "/daily-goals")
  | update_daily_goal => (PUT, "/daily-goals/{goal_id}")
  | delete_daily_goal => (DELETE, "/daily-goals/{goal_id}")
  | get_user_daily_goals => (GET, "/users/{user_id}/daily-goals")
  | get_all_daily_goals_admin => (GET, "/admin/daily-goals")
  end.

Inductive Operation := GetOne | UpdateOne | DeleteOne.

(** A single-item operation addresses the item by a path parameter at the
    end of its path. *)
Definition operation (e : Endpoint) : option Operation :=
  let '(method, path) := route e in
  if endswith "_id}" path then
    match method with
    | GET => Some GetOne
    | PUT => Some UpdateOne
    | DELETE => Some DeleteOne
    | POST => None
    end
  else None.

#[global] Instance Resource_eq_dec : EqDecision Resource.
Proof. solve_decision. Defined.
#[global] Instance Operation_eq_dec : EqDecision Operation.
Proof. solve_decision. Defined.
#[global] Instance Endpoint_eq_dec : EqDecision Endpoint.
Proof. solve_decision. Defined.

(** The single-item endpoint of a resource for an operation, if its router
    declares one. *)
Definition single_item (r : Resource) (o : Operation) : option Endpoint :=
  find (λ e, bool_decide (router e = r) && bool_decide (operation e = Some o))
       endpoints.

End Routes.

(** * The outcome rule of the single-item operations *)

Section OutcomeRule.
Context {Row A : Type} (row_id owner : Row → Z).

(** Not found before anything else; forbidden for an actor who is neither
    ADMIN nor the owner; otherwise neither of the two. *)
Definition decides_by_rule (ok : Z)
    (handler : Z → UserModel → list Row → Result A) : Prop :=
  ∀ (i : Z) (current_user : UserModel) (db : list Row),
    match query_get row_id db i with
    | None => status_of ok (handler i current_user db) = HTTP_404_NOT_FOUND
    | Some row =>
        if User.role_ne_admin current_user
           && negb (owner row =? User.id current_user)
        then status_of ok (handler i current_user db) = HTTP_403_FORBIDDEN
        else status_of ok (handler i current_user db) ≠ HTTP_404_NOT_FOUND
             ∧ status_of ok (handler i current_user db) ≠ HTTP_403_FORBIDDEN
    end.

End OutcomeRule.

Section FollowsRule.
Context `{Collaborators}.
Import Routes.

(** The rule, for the handler behind each single-item endpoint. *)
Definition follows_rule (e : Endpoint) : Prop :=
  match e with
  | get_single_task =>
      decides_by_rule Task.id Task.user_id HTTP_200_OK Tasks.get_single_task
  | update_task =>
      ∀ u, decides_by_rule Task.id Task.user_id HTTP_200_OK
             (λ i cu db, (Tasks.update_task i u cu db).1)
  | delete_task =>
      decides_by_rule Task.id Task.user_id HTTP_200_OK
        (λ i cu db, (Tasks.delete_task i cu db).1)
  | get_habit =>
      decides_by_rule Habit.id Habit.user_id HTTP_200_OK Habits.get_habit
  | update_habit =>
      ∀ u now, decides_by_rule Habit.id Habit.user_id HTTP_200_OK
                 (λ i cu db, (Habits.update_habit i u now cu db).1)
  | delete_habit =>
      decides_by_rule Habit.id Habit.user_id HTTP_200_OK
        (λ i cu db, (Habits.delete_habit i cu db).1)
  | get_note =>
      decides_by_rule Note.id Note.user_id HTTP_200_OK Notes.get_note
  | update_note =>
      ∀ u, decides_by_rule Note.id Note.user_id HTTP_200_OK
             (λ i cu db, (Notes.update_note i u cu db).1)
  | delete_note =>
      decides_by_rule Note.id Note.user_id HTTP_200_OK
        (λ i cu db, (Notes.delete_note i cu db).1)
  | get_daily_goal =>
      decides_by_rule DailyGoal.id DailyGoal.user_id HTTP_200_OK
        DailyGoals.get_daily_goal
  | update_daily_goal =>
      ∀ u, decides_by_rule DailyGoal.id DailyGoal.user_id HTTP_200_OK
             (λ i cu db, (DailyGoals.update_daily_goal i u cu db).1)
  | delete_daily_goal =>
      decides_by_rule DailyGoal.id DailyGoal.user_id HTTP_200_OK
        (λ i cu db, (DailyGoals.delete_daily_goal i cu db).1)
  | _ => False
  end.

End FollowsRule.

(** * A concrete choice of collaborators

    PostgreSQL's error texts name the violated constraint and column; the
    hashing and signing functions are stand-ins of the right shape. *)

Definition postgres_error_text (v : Violation) : string :=
  match v with
  | NotNull table column =>
      "null value in column " +:+ column +:+ " of relation " +:+ table
      +:+ " violates not-null constraint"
  | Unique table column value =>
      "duplicate key value violates unique constraint " +:+ table +:+ "_"
      +:+ column +:+ "_key DETAIL: Key (" +:+ column +:+ ")=(" +:+ value
      +:+ ") already exists."
  end.

Definition sample_jwt_encode (payload : gmap string Value) (key : string)
  : Result string :=
  match payload !! "sub", payload !! "role" with
  | Some (VStr sub), Some (VStr role) =>
      Return ("header." +:+ sub +:+ "." +:+ role +:+ "." +:+ key)
  | _, _ => Raise (Exception "TypeError" "Object is not JSON serializable")
  end.

Definition sample_collaborators : Collaborators := {|
  secret := "your-secret-key-change-in-production";
  jwt_encode := sample_jwt_encode;
  bcrypt_hash := λ salt password, Return ("$2b$12$" +:+ salt +:+ password);
  bcrypt_verify := λ password hash,
    Return (endswith password hash);
  pg_error_text := postgres_error_text;
  sqlalchemy_str := λ orig, "(psycopg2.errors.NotNullViolation) " +:+ orig
|}.

(** * Registration *)

(** The conflict payload of [create_user]: an error body that names the
    taken username or email. *)
Definition conflict (r : Result (gmap string Value)) : Prop :=
  ∃ body, r = Return body
          ∧ (body !! "error" = Some (VStr "Username already exists")
             ∨ body !! "error" = Some (VStr "Email already exists")).

(** A row that holds the username or the email of a registration. *)
Definition taken_by (user : UserSerializers.UserSchema) (row : UserModel) : Prop :=
  User.username row = UserSerializers.username user
  ∨ User.email row = UserSerializers.email user.

(** The storage engine names the violated column in its error for the two
    unique columns of the [users] table. *)
Definition names_violated_column `{Collaborators} : Prop :=
  ∀ value,
    contains "username" (lower (pg_error_text (Unique "users" "username" value))) = true
    ∧ contains "email" (lower (pg_error_text (Unique "users" "email" value))) = true.


(** The row a successful registration writes. *)
Definition registered (user : UserSerializers.UserSchema) (new_id : Z)
    (hash : string) : UserModel :=
  {| User.id := new_id;
     User.username := UserSerializers.username user;
     User.email := UserSerializers.email user;
     User.password_hash := Some hash;
     User.role := Some (Users.user_role user) |}.

(** Sample data. *)
Definition alice : UserSerializers.UserSchema :=
  {| UserSerializers.username := "alice";
     UserSerializers.email := "a@x.com";
     UserSerializers.password := "pw1";
     UserSerializers.role := Some "CUSTOMER" |}.

Definition alice_row : UserModel := registered alice 1 "$2b$12$saltpw1".

Definition mallory : UserSerializers.UserSchema :=
  {| UserSerializers.username := "mallory";
     UserSerializers.email := "m@x.com";
     UserSerializers.password := "pw2";
     UserSerializers.role := Some "manager" |}.

Definition bob_row : UserModel :=
  {| User.id := 2;
     User.username := "bob";
     User.email := "b@x.com";
     User.password_hash := Some "not-a-bcrypt-hash";
     User.role := Some "CUSTOMER" |}.

Definition bob_login : UserSerializers.UserLogin :=
  {| UserSerializers.login_username := "bob";
     UserSerializers.login_password := "pw3" |}.

(** * Token verification *)

Inductive AuthError := Expired | Invalid.

(** Modelled from the spec: the token check of
    [dependencies/get_current_user.py], which is not among the sources.
    Spec 4.2: [verify(token) -> {user_id, role} | AuthError] "fails with
    AuthError::Expired if current time ≥ expiry claim; fails with
    AuthError::Invalid if signature does not verify or required claims are
    missing".  [decode] checks the signature against the secret and gives
    the claims of a token that passes. *)
Definition verify (decode : string → option (gmap string Value)) (now : Z)
    (token : string) : AuthError + (string * string) :=
  match decode token with
  | None => inl Invalid
  | Some claims =>
      match claims !! "exp", claims !! "sub", claims !! "role" with
      | Some (VDateTime exp), Some (VStr sub), Some (VStr role) =>
          if exp <=? now then inl Expired else inr (sub, role)
      | _, _, _ => inl Invalid
      end
  end.

(** * Partial updates, as the specification words them *)

(** "Only supplied fields are applied; unsupplied fields untouched": the
    value of an attribute after an update that carries the field [f]. *)
Definition applied {A} (inj : A → Value) (f : Field A) (old : Value) : Value :=
  match f with
  | Unset => old
  | SetTo v => assigned inj v
  end.

Definition patched_task (u : Task.TaskUpdate) (old : Task.TaskModel)
  : Task.TaskModel :=
  {| Task.id := Task.id old;
     Task.title := applied VStr (Task.update_title u) (Task.title old);
     Task.description :=
       applied VStr (Task.update_description u) (Task.description old);
     Task.due_date := applied VDateTime (Task.update_due_date u) (Task.due_date old);
     Task.is_completed :=
       applied VBool (Task.update_is_completed u) (Task.is_completed old);
     Task.created_at := Task.created_at old;
     Task.user_id := Task.user_id old |}.

Definition patched_note (u : Note.NoteUpdate) (old : Note.NoteModel)
  : Note.NoteModel :=
  {| Note.id := Note.id old;
     Note.user_id := Note.user_id old;
     Note.title := applied VStr (Note.update_title u) (Note.title old);
     Note.content := applied VStr (Note.update_content u) (Note.content old);
     Note.created_at := Note.created_at old |}.

Definition patched_daily_goal (u : DailyGoal.DailyGoalUpdate)
    (old : DailyGoal.DailyGoalModel) : DailyGoal.DailyGoalModel :=
  {| DailyGoal.id := DailyGoal.id old;
     DailyGoal.title :=
       applied VStr (DailyGoal.update_title u) (DailyGoal.title old);
     DailyGoal.description :=
       applied VStr (DailyGoal.update_description u) (DailyGoal.description old);
     DailyGoal.goal_date :=
       applied VDate (DailyGoal.update_goal_date u) (DailyGoal.goal_date old);
     DailyGoal.is_completed :=
       applied VBool (DailyGoal.update_is_completed u) (DailyGoal.is_completed old);
     DailyGoal.user_id := DailyGoal.user_id old;
     DailyGoal.created_at := DailyGoal.created_at old |}.

(** For a habit the supplied fields are applied, and [completed_at], which
    no request can supply, follows [is_completed] when that is supplied. *)
Definition patched_habit (now : Z) (u : Habit.HabitUpdate)
    (old : Habit.HabitModel) : Habit.HabitModel :=
  {| Habit.id := Habit.id old;
     Habit.user_id := Habit.user_id old;
     Habit.title := applied VStr (Habit.update_title u) (Habit.title old);
     Habit.description :=
       applied VStr (Habit.update_description u) (Habit.description old);
     Habit.completed_at :=
       match Habit.update_is_completed u with
       | Unset => Habit.completed_at old
       | SetTo (Some true) => VDateTime now
       | SetTo _ => VNone
       end;
     Habit.is_completed :=
       applied VBool (Habit.update_is_completed u) (Habit.is_completed old);
     Habit.created_at := Habit.created_at old |}.

(** An update handler that returns the addressed row patched by [patch]
    and rewrites that row, or raises and leaves the table as it was. *)
Definition applies_exactly {Row U : Type} (row_id : Row → Z)
    (patch : U → Row → Row)
    (handler : Z → U → UserModel → list Row → Result Row * list Row) : Prop :=
  ∀ (i : Z) (u : U) (current_user : UserModel) (db : list Row),
    match handler i u current_user db with
    | (Return row, db') =>
        ∃ old, query_get row_id db i = Some old
               ∧ row = patch u old
               ∧ db' = update_commit row_id row db
    | (Raise _, db') => db' = db
    end.












Definition carol : UserModel :=
  {| User.id := 3;
     User.username := "carol";
     User.email := "c@x.com";
     User.password_hash := Some "$2b$12$saltpw4";
     User.role := Some "CUSTOMER" |}.



(** * Listing, as the specification words it *)

(** The query string of a list request.  FastAPI binds the parameters a
    handler declares and ignores the others. *)
Record ListQuery := {
  q_goal_date : option Z;
  q_completed : option bool;
  q_search : option string;
  q_limit : Z;
  q_offset : Z
}.

Section ListEndpoints.
Context `{Collaborators}.

Definition list_tasks (q : ListQuery) (current_user : UserModel)
    (db : list Task.TaskModel) : Result (list Task.TaskModel) :=
  Tasks.get_tasks current_user (q_completed q) (q_search q) db.

Definition list_habits (q : ListQuery) (current_user : UserModel)
    (db : list Habit.HabitModel) : Result (list Habit.HabitModel) :=
  Habits.get_my_habits (q_completed q) current_user db.

Definition list_notes (q : ListQuery) (current_user : UserModel)
    (db : list Note.NoteModel) : Result (list Note.NoteModel) :=
  Notes.get_user_notes current_user (q_search q) db.

Definition list_daily_goals (q : ListQuery) (current_user : UserModel)
    (db : list DailyGoal.DailyGoalModel) : Result (list DailyGoal.DailyGoalModel) :=
  DailyGoals.get_daily_goals current_user (q_goal_date q) (q_completed q)
    (q_search q) (q_limit q) (q_offset q) db.

End ListEndpoints.

(** "completion status (exact match)" *)
Definition matches_completed (is_completed : Value) (completed : option bool)
  : bool :=
  match completed with
  | None => true
  | Some c => bool_decide (is_completed = VBool c)
  end.

(** "date filters where applicable" *)
Definition matches_date (goal_date : Value) (wanted : option Z) : bool :=
  match wanted with
  | None => true
  | Some d => bool_decide (goal_date = VDate d)
  end.

(** The free-text filter as the controllers run it: the term, between two
    [%], is an [ILIKE] pattern for the title and for the secondary text,
    either of which may match; an empty term does not filter. *)
Definition matches_search (primary secondary : Value) (search : option string)
  : bool :=
  match search with
  | None => true
  | Some s =>
      if String.eqb s "" then true
      else Sql.ilike primary ("%" +:+ s +:+ "%")
           || Sql.ilike secondary ("%" +:+ s +:+ "%")
  end.

(** "case-insensitive substring match" *)
Definition icontains (term text : string) : bool :=
  contains (lower term) (lower text).

Definition wildcard (c : ascii) : bool :=
  Ascii.eqb c "%" || Ascii.eqb c "_" || Ascii.eqb c "\".

Fixpoint wildcard_free (s : string) : bool :=
  match s with
  | EmptyString => true
  | String c s' => negb (wildcard c) && wildcard_free s'
  end.

(** The pattern that matches the characters of [s] as they are. *)
Fixpoint literal (s : string) : list Sql.Tok :=
  match s with
  | EmptyString => []
  | String c s' => Sql.Lit c :: literal s'
  end.

(** "newest-first by creation time": the rows that pass [keep], ordered. *)
Definition listing {Row} (created_at : Row → Z) (keep : Row → bool)
    (db : list Row) : list Row :=
  order_by_desc created_at (List.filter keep db).

Definition keep_task (current_user : UserModel) (q : ListQuery)
    (t : Task.TaskModel) : bool :=
  (Task.user_id t =? User.id current_user)
  && matches_completed (Task.is_completed t) (q_completed q)
  && matches_search (Task.title t) (Task.description t) (q_search q).

Definition keep_habit (current_user : UserModel) (q : ListQuery)
    (h : Habit.HabitModel) : bool :=
  (Habit.user_id h =? User.id current_user)
  && matches_completed (Habit.is_completed h) (q_completed q).

Definition keep_note (current_user : UserModel) (q : ListQuery)
    (n : Note.NoteModel) : bool :=
  (Note.user_id n =? User.id current_user)
  && matches_search (Note.title n) (Note.content n) (q_search q).

Definition keep_daily_goal (current_user : UserModel) (q : ListQuery)
    (g : DailyGoal.DailyGoalModel) : bool :=
  (DailyGoal.user_id g =? User.id current_user)
  && matches_date (DailyGoal.goal_date g) (q_goal_date q)
  && matches_completed (DailyGoal.is_completed g) (q_completed q)
  && matches_search (DailyGoal.title g) (DailyGoal.description g) (q_search q).

Definition carol_task (i created : Z) : Task.TaskModel :=
  {| Task.id := i;
     Task.title := VStr "write report";
     Task.description := VStr "quarterly";
     Task.due_date := VNone;
     Task.is_completed := VBool false;
     Task.created_at := created;
     Task.user_id := 3 |}.

Definition first_page_of_one : ListQuery :=
  {| q_goal_date := None;
     q_completed := None;
     q_search := None;
     q_limit := 1;
     q_offset := 0 |}.

Definition alice_login : UserSerializers.UserLogin :=
  {| UserSerializers.login_username := "alice";
     UserSerializers.login_password := "pw1" |}.

Definition t1 : Task.TaskCreate :=
  {| Task.create_title := "t1";
     Task.create_description := "d1";
     Task.create_due_date := None |}.

Definition alice_task : Task.TaskModel :=
  {| Task.id := 1;
     Task.title := VStr "t1";
     Task.description := VStr "d1";
     Task.due_date := VNone;
     Task.is_completed := VBool false;
     Task.created_at := 50;
     Task.user_id := 1 |}.

Definition bob_note : Note.NoteModel :=
  {| Note.id := 4;
     Note.user_id := 2;
     Note.title := VStr "shopping";
     Note.content := VNone;
     Note.created_at := 60 |}.

Definition root : UserModel :=
  {| User.id := 9;
     User.username := "root";
     User.email := "root@x.com";
     User.password_hash := Some "$2b$12$saltpw9";
     User.role := Some "ADMIN" |}.

(** * The remaining endpoints of the controllers *)

Module AdminLists.

(** [GET /api/tasks/admin/all] *)
Definition get_all_tasks_admin (current_user : UserModel)
    (db : list Task.TaskModel) : Result (list Task.TaskModel) :=
  if User.role_ne_admin current_user
  then Raise (HTTPException HTTP_403_FORBIDDEN "Only admin users can view all tasks")
  else Return (order_by_desc Task.created_at db).

(** [GET /api/habits/admin/all]; [if user_id:] skips the filter for [None]
    and for 0. *)
Definition get_all_habits_admin (user_id : option Z) (completed : option bool)
    (current_user : UserModel) (db : list Habit.HabitModel)
  : Result (list Habit.HabitModel) :=
  if User.role_ne_admin current_user
  then Raise (HTTPException HTTP_403_FORBIDDEN "Only admin users can view all habits")
  else
    let query := db in
    let query :=
      match user_id with
      | Some u =>
          if truthy (VInt u)
          then List.filter (λ h, Habit.user_id h =? u) query
          else query
      | None => query
      end in
    let query :=
      match completed with
      | Some c => List.filter (λ h, bool_decide (Habit.is_completed h = VBool c)) query
      | None => query
      end in
    Return (order_by_desc Habit.created_at query).

(** [GET /api/admin/daily-goals], with the validated [limit] and [offset]
    of [get_daily_goals]. *)
Definition get_all_daily_goals_admin (current_user : UserModel)
    (show_completed : bool) (limit offset : Z)
    (db : list DailyGoal.DailyGoalModel) : Result (list DailyGoal.DailyGoalModel) :=
  if (1 <=? limit) && (limit <=? 100) && (0 <=? offset)
  then
    if User.role_ne_admin current_user
    then Raise (HTTPException HTTP_403_FORBIDDEN "Admin access required")
    else
      let query := db in
      let query :=
        if negb show_completed
        then List.filter
               (λ g, bool_decide (DailyGoal.is_completed g = VBool false)) query
        else query in
      Return (limit_offset limit offset (order_by_desc DailyGoal.created_at query))
  else Raise RequestValidationError.

End AdminLists.

Module UserDailyGoals.

(** [GET /api/users/{user_id}/daily-goals] *)
Definition get_user_daily_goals (user_id : Z) (current_user : UserModel)
    (limit offset : Z) (db : list DailyGoal.DailyGoalModel)
  : Result (list DailyGoal.DailyGoalModel) :=
  if (1 <=? limit) && (limit <=? 100) && (0 <=? offset)
  then
    if negb (User.id current_user =? user_id) && User.role_ne_admin current_user
    then Raise (HTTPException HTTP_403_FORBIDDEN
                  "Not authorized to view these daily goals")
    else
      Return (limit_offset limit offset
                (order_by_desc DailyGoal.created_at
                   (List.filter (λ g, DailyGoal.user_id g =? user_id) db)))
  else Raise RequestValidationError.

End UserDailyGoals.

Module Stats.

(** [HabitStats] of [serializers/habit.py] *)
Record HabitStats := {
  total_habits : Z;
  completed_habits : Z;
  incomplete_habits : Z
}.

(** [query.count()] *)
Definition count {Row} (rows : list Row) : Z := Z.of_nat (length rows).

(** [GET /api/habits/stats/my] *)
Definition get_habit_stats (current_user : UserModel)
    (db : list Habit.HabitModel) : Result HabitStats :=
  let total_habits :=
    count (List.filter (λ h, Habit.user_id h =? User.id current_user) db) in
  let completed_habits :=
    count (List.filter
             (λ h, (Habit.user_id h =? User.id current_user)
                   && bool_decide (Habit.is_completed h = VBool true)) db) in
  let incomplete_habits := total_habits - completed_habits in
  Return {| total_habits := total_habits;
            completed_habits := completed_habits;
            incomplete_habits := incomplete_habits |}.

End Stats.

(** * The role-column scripts *)

Module Migration.

(** The [role] column of the [users] table, as an [ADD COLUMN] declares
    it. *)
Record Column := {
  varchar : Z;
  default_value : string;
  not_null : bool
}.

(** The [users] table: whether it has a [role] column, and its rows.  A
    row of a table without the column has no role. *)
Record UsersTable := {
  role_column : option Column;
  rows : list UserModel
}.

Definition with_role (r : option string) (row : UserModel) : UserModel :=
  {| User.id := User.id row;
     User.username := User.username row;
     User.email := User.email row;
     User.password_hash := User.password_hash row;
     User.role := r |}.

(** [ALTER TABLE users ADD COLUMN role VARCHAR(n) DEFAULT 'd' ...]: the
    rows the table has take the default; a column that exists is an
    error, with the engine's text. *)
Definition add_column (duplicate_text : string) (c : Column) (t : UsersTable)
  : Result UsersTable :=
  match role_column t with
  | Some _ => Raise (ProgrammingError duplicate_text)
  | None =>
      Return {| role_column := Some c;
                rows := map (with_role (Some (default_value c))) (rows t) |}
  end.

(** [UPDATE users SET role = 'v' WHERE role IS NULL] *)
Definition update_null_roles (v : string) (t : UsersTable) : UsersTable :=
  {| role_column := role_column t;
     rows := map (λ row, match User.role row with
                         | None => with_role (Some v) row
                         | Some _ => row
                         end) (rows t) |}.

Definition postgres_duplicate_text : string :=
  "column role of relation users already exists".

(** [fix_role_column.py] on a database that has a [users] table ([None]
    when it has not).  The result is the table after the script, which is
    the table before when the script raises (the transaction is rolled
    back). *)
Definition fix_role_column (db : option UsersTable)
  : Result unit * option UsersTable :=
  match db with
  | None => (Raise (ProgrammingError "relation users does not exist"), db)
  | Some t =>
      match role_column t with
      | Some _ => (Return (), db)
      | None =>
          match add_column postgres_duplicate_text
                  {| varchar := 50; default_value := "CUSTOMER"; not_null := true |} t with
          | Raise e => (Raise e, db)
          | Return t => (Return (), Some (update_null_roles "CUSTOMER" t))
          end
      end
  end.

(** [add_role_column.py] at the root of the sources, from the connection
    on: the script on a database that has a [users] table, for the
    database URI it is run with, once [create_engine] has accepted the URI
    and [engine.connect] has reached the database; [duplicate_text] is the
    engine's text for a column that exists.  A URI that names neither
    engine leaves [check_query] unbound. *)
Definition add_role_column (db_URI duplicate_text : string) (t : UsersTable)
  : Result unit * UsersTable :=
  let customer := {| varchar := 20; default_value := "customer"; not_null := false |} in
  if contains "postgresql" (lower db_URI) then
    match role_column t with
    | Some _ => (Return (), t)
    | None =>
        match add_column duplicate_text customer t with
        | Raise e => (Raise e, t)
        | Return t => (Return (), t)
        end
    end
  else if contains "sqlite" (lower db_URI) then
    match add_column duplicate_text customer t with
    | Return t => (Return (), t)
    | Raise e =>
        if contains "duplicate column" (lower (str_exn e))
           || contains "already exists" (lower (str_exn e))
        then (Return (), t)
        else (Raise e, t)
    end
  else
    (Raise (Exception "UnboundLocalError"
              "cannot access local variable 'check_query' where it is not associated with a value"),
     t).

End Migration.

(** * Sample rows *)

Definition root_habit : Habit.HabitModel :=
  {| Habit.id := 11;
     Habit.user_id := 9;
     Habit.title := VStr "review";
     Habit.description := VNone;
     Habit.completed_at := VDateTime 900;
     Habit.is_completed := VBool true;
     Habit.created_at := 800 |}.

Definition legacy_user : UserModel :=
  {| User.id := 1;
     User.username := "dave";
     User.email := "d@x.com";
     User.password_hash := Some "$2b$12$saltpw5";
     User.role := None |}.

(** * How the operations on one resource compose *)

Section Composition.
Context {Row : Type} (row_id owner created_at : Row → Z).

(** A delete that succeeds leaves the rows with another id, in their
    order; afterwards a get of the id is answered 404 for every actor, and
    so is a second delete.  A delete that raises leaves the table. *)
Definition deletes_by_id {A}
    (get : Z → UserModel → list Row → Result Row)
    (delete : Z → UserModel → list Row → Result A * list Row) : Prop :=
  ∀ (i : Z) (current_user : UserModel) (db : list Row),
    match delete i current_user db with
    | (Return _, db') =>
        db' = List.filter (λ row, negb (row_id row =? i)) db
        ∧ (∀ actor, status_of HTTP_200_OK (get i actor db') = HTTP_404_NOT_FOUND)
        ∧ (∀ actor, status_of HTTP_200_OK (delete i actor db').1
                    = HTTP_404_NOT_FOUND)
    | (Raise _, db') => db' = db
    end.

(** A create with a key that no row has appends one row, and a get of
    that key by the creator returns that row. *)
Definition created_is_readable {C}
    (create : C → Z → Z → UserModel → list Row → Result Row * list Row)
    (get : Z → UserModel → list Row → Result Row) : Prop :=
  ∀ (c : C) (now new_id : Z) (current_user : UserModel) (db : list Row),
    query_get row_id db new_id = None →
    ∃ row, create c now new_id current_user db = (Return row, db ++ [row])
           ∧ get new_id current_user (db ++ [row]) = Return row.

(** After an update that succeeds, a get of the id by the same actor
    returns the row the update returned. *)
Definition updated_is_readable {U}
    (update : Z → U → UserModel → list Row → Result Row * list Row)
    (get : Z → UserModel → list Row → Result Row) : Prop :=
  ∀ (i : Z) (u : U) (current_user : UserModel) (db : list Row) row db',
    update i u current_user db = (Return row, db') →
    get i current_user db' = Return row.

(** Whatever an update does, no row changes its key, its owner or its
    creation time, and no row is added or removed. *)
Definition keeps_keys {U}
    (update : Z → U → UserModel → list Row → Result Row * list Row) : Prop :=
  ∀ (i : Z) (u : U) (current_user : UserModel) (db : list Row),
    NoDup (map row_id db) →
    map row_id (update i u current_user db).2 = map row_id db
    ∧ map owner (update i u current_user db).2 = map owner db
    ∧ map created_at (update i u current_user db).2 = map created_at db.

End Composition.

Definition rename_t2 : Task.TaskUpdate :=
  {| Task.update_title := SetTo (Some "t2");
     Task.update_description := Unset;
     Task.update_due_date := Unset;
     Task.update_is_completed := Unset |}.

Definition alice_task_renamed : Task.TaskModel :=
  {| Task.id := 1;
     Task.title := VStr "t2";
     Task.description := VStr "d1";
     Task.due_date := VNone;
     Task.is_completed := VBool false;
     Task.created_at := 50;
     Task.user_id := 1 |}.

(** A search term made of [%] only. *)
Fixpoint only_percent (s : string) : bool :=
  match s with
  | EmptyString => true
  | String c s' => Ascii.eqb c "%" && only_percent s'
  end.

(** A column that holds a string, as a [nullable=False] text column does. *)
Definition is_text (v : Value) : Prop := ∃ s, v = VStr s.

(** A text of ASCII characters only: on these [lower] and [upper] are
    [str.lower] and [str.upper], and the folding of [ILIKE] is theirs. *)
Definition is_ascii (s : string) : bool :=
  forallb (λ c, (nat_of_ascii c <? 128)%nat) (list_ascii_of_string s).

(** An order the storage engine may return for
    [.order_by(Model.created_at.desc())] on [rows]: the same rows, none
    older before a newer one. *)
Definition newest_first_order {Row} (created_at : Row → Z)
    (rows ordered : list Row) : Prop :=
  ordered ≡ₚ rows ∧ StronglySorted (newer_first created_at) ordered.



Definition carol_goal (i created : Z) (done : bool) : DailyGoal.DailyGoalModel :=
  {| DailyGoal.id := i;
     DailyGoal.title := VStr "stretch";
     DailyGoal.description := VStr "ten minutes";
     DailyGoal.goal_date := VDate 20000;
     DailyGoal.is_completed := VBool done;
     DailyGoal.user_id := 3;
     DailyGoal.created_at := created |}.
(** * Single-item operations: existence, then permission *)

Section SingleItem.
Context `{Collaborators}.

Tactic Notation "by_rule" reference(handler) :=
  intros i cu db; cbn beta; unfold handler;
  destruct (query_get _ db i) as [row|]; [|reflexivity];
  destruct (User.role_ne_admin cu), (_ =? User.id cu); cbn;
  try reflexivity;
  try (split; discriminate);
  try (match goal with |- context [match ?f with _ => _ end] =>
         destruct f; cbn; split; discriminate end).

Lemma get_single_task_rule :
  decides_by_rule Task.id Task.user_id HTTP_200_OK Tasks.get_single_task.
Proof. by_rule Tasks.get_single_task. Qed.

Lemma update_task_rule u :
  decides_by_rule Task.id Task.user_id HTTP_200_OK
    (λ i cu db, (Tasks.update_task i u cu db).1).
Proof. by_rule Tasks.update_task. Qed.

Lemma delete_task_rule :
  decides_by_rule Task.id Task.user_id HTTP_200_OK
    (λ i cu db, (Tasks.delete_task i cu db).1).
Proof. by_rule Tasks.delete_task. Qed.

Lemma get_habit_rule :
  decides_by_rule Habit.id Habit.user_id HTTP_200_OK Habits.get_habit.
Proof. by_rule Habits.get_habit. Qed.

Lemma update_habit_rule u now :
  decides_by_rule Habit.id Habit.user_id HTTP_200_OK
    (λ i cu db, (Habits.update_habit i u now cu db).1).
Proof. by_rule Habits.update_habit. Qed.

Lemma delete_habit_rule :
  decides_by_rule Habit.id Habit.user_id HTTP_200_OK
    (λ i cu db, (Habits.delete_habit i cu db).1).
Proof. by_rule Habits.delete_habit. Qed.

Lemma get_note_rule :
  decides_by_rule Note.id Note.user_id HTTP_200_OK Notes.get_note.
Proof. by_rule Notes.get_note. Qed.

Lemma update_note_rule u :
  decides_by_rule Note.id Note.user_id HTTP_200_OK
    (λ i cu db, (Notes.update_note i u cu db).1).
Proof. by_rule Notes.update_note. Qed.

Lemma delete_note_rule :
  decides_by_rule Note.id Note.user_id HTTP_200_OK
    (λ i cu db, (Notes.delete_note i cu db).1).
Proof. by_rule Notes.delete_note. Qed.

Lemma get_daily_goal_rule :
  decides_by_rule DailyGoal.id DailyGoal.user_id HTTP_200_OK
    DailyGoals.get_daily_goal.
Proof. by_rule DailyGoals.get_daily_goal. Qed.

Lemma update_daily_goal_rule u :
  decides_by_rule DailyGoal.id DailyGoal.user_id HTTP_200_OK
    (λ i cu db, (DailyGoals.update_daily_goal i u cu db).1).
Proof. by_rule DailyGoals.update_daily_goal. Qed.

Lemma delete_daily_goal_rule :
  decides_by_rule DailyGoal.id DailyGoal.user_id HTTP_200_OK
    (λ i cu db, (DailyGoals.delete_daily_goal i cu db).1).
Proof. by_rule DailyGoals.delete_daily_goal. Qed.

End SingleItem.


(** * Registration: conflicts *)

Section Registration.
Context `{Collaborators}.
Import UserSerializers Users.

Lemma query_username_or_email_Some db user :
  (∃ row, row ∈ db ∧ taken_by user row) →
  ∃ existing_user, query_username_or_email db (username user) (email user)
                   = Some existing_user.
Proof.
  intros (row & Hin & Htaken). unfold query_username_or_email.
  destruct (find _ db) as [x|] eqn:Hfind; [by eexists|].
  apply list_elem_of_In in Hin.
  pose proof (find_none _ _ Hfind _ Hin) as Hnone. cbn in Hnone.
  apply orb_false_elim in Hnone as [Hu He].
  apply String.eqb_neq in Hu, He. destruct Htaken; contradiction.
Qed.

Lemma create_user_except_unique_username value :
  names_violated_column →
  conflict (create_user_except
              (IntegrityError (pg_error_text (Unique "users" "username" value)))).
Proof.
  intros Hnames. destruct (Hnames value) as [Hu _].
  unfold create_user_except, str_exn. rewrite Hu.
  eexists; split; [reflexivity|]. left. reflexivity.
Qed.

Lemma create_user_except_unique_email value :
  names_violated_column →
  conflict (create_user_except
              (IntegrityError (pg_error_text (Unique "users" "email" value)))).
Proof.
  intros Hnames. destruct (Hnames value) as [_ He].
  unfold create_user_except, str_exn.
  destruct (contains "username" _).
  - eexists; split; [reflexivity|]. left. reflexivity.
  - rewrite He. eexists; split; [reflexivity|]. right. reflexivity.
Qed.

Lemma add_commit_taken (new_user : UserModel) (rows : list UserModel) :
  (∃ row, row ∈ rows
          ∧ (User.username row = User.username new_user
             ∨ User.email row = User.email new_user)) →
  ∃ column value,
    Users.add_commit new_user rows
    = Raise (IntegrityError (pg_error_text (Unique "users" column value)))
    ∧ (column = "username" ∨ column = "email").
Proof.
  intros (row & Hin & Htaken). apply list_elem_of_In in Hin.
  unfold Users.add_commit.
  destruct (existsb (λ r, String.eqb (User.username r) _) rows) eqn:Hu.
  { do 2 eexists. split; [reflexivity|]. by left. }
  destruct (existsb (λ r, String.eqb (User.email r) _) rows) eqn:He.
  { do 2 eexists. split; [reflexivity|]. by right. }
  exfalso.
  assert (Hrow : ∀ f : UserModel → bool, existsb f rows = false → f row = false).
  { intros f Hf. destruct (f row) eqn:E; [|done].
    rewrite <- Hf. symmetry. apply existsb_exists. by exists row. }
  apply Hrow in Hu, He. apply String.eqb_neq in Hu, He.
  destruct Htaken; contradiction.
Qed.

(** C2. A registration whose username or email is held by an existing user
    gets the conflict payload and adds no row; and when the pre-insert
    query saw no such user but a concurrent request committed one before
    this request's insert, the duplicate-key error of the insert is
    answered with the conflict payload too, and adds no row. *)
Theorem registration_conflict user salt new_id now_exp now_iat db concurrent :
  names_violated_column →
  let result := create_user user salt new_id now_exp now_iat db concurrent in
  ((∃ row, row ∈ db ∧ taken_by user row) →
   conflict result.1 ∧ result.2 = db ++ concurrent)
  ∧ (∀ hash,
       query_username_or_email db (username user) (email user) = None →
       (∃ row, row ∈ concurrent ∧ taken_by user row) →
       bcrypt_hash salt (password user) = Return hash →
       conflict result.1 ∧ result.2 = db ++ concurrent).
Proof.
  intros Hnames result. subst result. split.
  - intros Htaken.
    destruct (query_username_or_email_Some db user Htaken) as [eu Hq].
    unfold create_user. rewrite Hq.
    destruct (String.eqb _ _); cbn; (split; [|reflexivity]);
      (eexists; split; [reflexivity|]); [left|right]; reflexivity.
  - intros hash Hq (row & Hin & Htaken) Hhash.
    unfold create_user. rewrite Hq.
    unfold User.set_password, pwd_context_hash. rewrite Hhash. cbn zeta.
    match goal with
    | |- context [Users.add_commit ?u ?rows] =>
        destruct (add_commit_taken u rows) as (column & value & -> & Hcol)
    end.
    { exists row. split; [apply elem_of_app; by right|]. exact Htaken. }
    cbn [fst snd]. split; [|reflexivity].
    destruct Hcol as [-> | ->].
    + by apply create_user_except_unique_username.
    + by apply create_user_except_unique_email.
Qed.

End Registration.

Lemma postgres_names_violated_column :
  @names_violated_column sample_collaborators.
Proof. intros value. split; reflexivity. Qed.

Lemma registration_conflict_witness :
  (conflict (Users.create_user (H := sample_collaborators)
               alice "salt" 2 0 0 [alice_row] []).1
   ∧ (Users.create_user (H := sample_collaborators)
        alice "salt" 2 0 0 [alice_row] []).2 = [alice_row])
  ∧ (conflict (Users.create_user (H := sample_collaborators)
                 alice "salt" 2 0 0 [] [alice_row]).1
     ∧ (Users.create_user (H := sample_collaborators)
          alice "salt" 2 0 0 [] [alice_row]).2 = [alice_row]).
Proof.
  split.
  - apply (registration_conflict (H := sample_collaborators)
             alice "salt" 2 0 0 [alice_row] []).
    + intros value. split; reflexivity.
    + exists alice_row. split; [apply list_elem_of_here|left; reflexivity].
  - apply (proj2 (registration_conflict (H := sample_collaborators)
                    alice "salt" 2 0 0 [] [alice_row]
                    (λ value, conj eq_refl eq_refl))
             "$2b$12$saltpw1").
    + reflexivity.
    + exists alice_row. split; [apply list_elem_of_here|left; reflexivity].
    + reflexivity.
Defined.

(** * Registration: the stored row and the response *)

Section RegistrationSuccess.
Context `{Collaborators}.
Import UserSerializers Users.

Lemma query_username_or_email_None db user :
  (∀ row, row ∈ db → ¬ taken_by user row) →
  query_username_or_email db (username user) (email user) = None.
Proof.
  intros Hfree. unfold query_username_or_email.
  destruct (find _ db) as [x|] eqn:Hfind; [|done].
  apply find_some in Hfind as [Hin Hx].
  apply list_elem_of_In in Hin. destruct (Hfree x Hin).
  apply orb_prop in Hx as [Hx|Hx]; apply String.eqb_eq in Hx; [by left|by right].
Qed.

Lemma add_commit_fresh (new_user : UserModel) (rows : list UserModel) :
  (∀ row, row ∈ rows →
          User.username row ≠ User.username new_user
          ∧ User.email row ≠ User.email new_user) →
  Users.add_commit new_user rows = Return (rows ++ [new_user]).
Proof.
  intros Hfree. unfold Users.add_commit.
  assert (Hnone : ∀ f : UserModel → bool,
             (∀ row, row ∈ rows → f row = false) → existsb f rows = false).
  { intros f Hf. destruct (existsb f rows) eqn:E; [|done].
    apply existsb_exists in E as (row & Hin & Hrow).
    apply list_elem_of_In in Hin. rewrite (Hf row Hin) in Hrow. done. }
  rewrite !Hnone; [done| |];
    intros row Hin; apply String.eqb_neq; by destruct (Hfree row Hin).
Qed.


End RegistrationSuccess.


(** C8. A registration with the role ["manager"] stores the role
    ["MANAGER"], which is neither of the two canonical values. *)
Theorem registration_stores_unknown_role :
  let result :=
    Users.create_user (H := sample_collaborators) mallory "salt" 7 0 0 [] [] in
  Users.user_role mallory = "MANAGER"
  ∧ result.2 = [registered mallory 7 "$2b$12$saltpw2"]
  ∧ (∃ body, result.1 = Return body ∧ body !! "role" = Some (VStr "MANAGER"))
  ∧ Forall (λ row, User.role row = Some "MANAGER"
                   ∧ User.role row ≠ Some UserRole.CUSTOMER
                   ∧ User.role row ≠ Some UserRole.ADMIN) result.2.
Proof.
  cbn zeta. split; [reflexivity|]. split; [reflexivity|]. split.
  - eexists. split; reflexivity.
  - constructor; [|constructor]. repeat split; discriminate.
Qed.

(** The role is the default when none is supplied, and the two canonical
    names are reached from any casing. *)
Lemma user_role_default user :
  UserSerializers.role user = None ∨ UserSerializers.role user = Some "" →
  Users.user_role user = UserRole.CUSTOMER.
Proof. unfold Users.user_role. by intros [-> | ->]. Qed.

Lemma user_role_upper user r :
  UserSerializers.role user = Some r → r ≠ "" →
  Users.user_role user = upper r.
Proof.
  intros Hrole Hr. unfold Users.user_role, User.role_truthy, truthy.
  rewrite Hrole. by apply String.eqb_neq in Hr as ->.
Qed.

(** * Tokens *)

Lemma token_payload_claims (self : UserModel) now_exp now_iat :
  let payload := User.token_payload self now_exp now_iat in
  payload !! "exp" = Some (VDateTime (now_exp + timedelta_days 1))
  ∧ payload !! "iat" = Some (VDateTime now_iat)
  ∧ payload !! "sub" = Some (VStr (str_int (User.id self)))
  ∧ payload !! "role"
    = Some (VStr (if User.role_truthy (User.role self)
                  then default "CUSTOMER" (User.role self)
                  else "CUSTOMER")).
Proof.
  cbn zeta. unfold User.token_payload. repeat split; try reflexivity.
  destruct (User.role self) as [r|]; [|reflexivity].
  destruct (User.role_truthy (Some r)); reflexivity.
Qed.

(** The expiry is one day after the issued-at claim exactly when the clock
    gave the same reading twice. *)
Lemma token_expiry_iff (self : UserModel) now_exp now_iat exp iat :
  User.token_payload self now_exp now_iat !! "exp" = Some (VDateTime exp) →
  User.token_payload self now_exp now_iat !! "iat" = Some (VDateTime iat) →
  exp = iat + timedelta_days 1 ↔ now_exp = now_iat.
Proof.
  destruct (token_payload_claims self now_exp now_iat) as (-> & -> & _).
  intros [= <-] [= <-]. lia.
Qed.

(** C3. With the first reading of the clock one microsecond before a full
    second and the second reading on it, the expiry claim of the issued
    token is not the issued-at claim plus 24 hours, neither as the payload
    holds the two nor as whole seconds. *)
Theorem token_expiry_not_issued_at_plus_day :
  let payload :=
    User.token_payload alice_row 1699999999999999 1700000000000000 in
  ∃ exp iat,
    payload !! "exp" = Some (VDateTime exp)
    ∧ payload !! "iat" = Some (VDateTime iat)
    ∧ exp ≠ iat + timedelta_days 1
    ∧ numeric_date exp = numeric_date iat + 86399.
Proof.
  cbn zeta. do 2 eexists.
  split; [reflexivity|]. split; [reflexivity|]. split; [discriminate|reflexivity].
Qed.

(** A token is rejected from its expiry on. *)
Lemma verify_rejects_expired decode now token claims exp :
  decode token = Some claims →
  claims !! "exp" = Some (VDateTime exp) →
  exp ≤ now →
  verify decode now token = inl Expired ∨ verify decode now token = inl Invalid.
Proof.
  intros Hdecode Hexp Hle. unfold verify. rewrite Hdecode, Hexp.
  destruct (claims !! "sub") as [[]|]; auto.
  destruct (claims !! "role") as [[]|]; auto.
  apply Z.leb_le in Hle as ->. auto.
Qed.

Lemma verify_issued_expired decode (self : UserModel) now_exp now_iat now token :
  decode token = Some (User.token_payload self now_exp now_iat) →
  now_exp + timedelta_days 1 ≤ now →
  verify decode now token = inl Expired.
Proof.
  intros Hdecode Hle. unfold verify. rewrite Hdecode.
  destruct (token_payload_claims self now_exp now_iat) as (-> & _ & -> & ->).
  by apply Z.leb_le in Hle as ->.
Qed.

(** * Credentials *)

Section Credentials.
Context `{Collaborators}.
Import UserSerializers Users.

Lemma login_wrong_password user now_exp now_iat db db_user :
  query_username db (login_username user) = Some db_user →
  User.verify_password db_user (login_password user) = Return false →
  login user now_exp now_iat db
  = Raise (HTTPException HTTP_401_UNAUTHORIZED "Invalid username or password").
Proof. intros Hq Hv. unfold login. by rewrite Hq, Hv. Qed.

(** C7, as the code has it. For a stored hash that is absent,
    [verify_password] returns false and login answers 401, as for a wrong
    password; for a stored hash that carries no bcrypt prefix,
    [verify_password] raises, and login answers 500. *)
Theorem login_absent_or_unidentified_hash user now_exp now_iat db db_user :
  query_username db (login_username user) = Some db_user →
  (User.password_hash db_user = None →
   User.verify_password db_user (login_password user) = Return false
   ∧ login user now_exp now_iat db
     = Raise (HTTPException HTTP_401_UNAUTHORIZED "Invalid username or password"))
  ∧ (∀ h, User.password_hash db_user = Some h →
          bcrypt_identify h = false →
          User.verify_password db_user (login_password user)
          = Raise (Exception "UnknownHashError" "hash could not be identified")
          ∧ login user now_exp now_iat db
            = Raise (HTTPException HTTP_500_INTERNAL_SERVER_ERROR
                       "Login failed due to an internal error")).
Proof.
  intros Hq. split.
  - intros Hnone.
    assert (Hv : User.verify_password db_user (login_password user) = Return false).
    { unfold User.verify_password, pwd_context_verify. by rewrite Hnone. }
    split; [exact Hv|]. by apply login_wrong_password with db_user.
  - intros h Hsome Hident.
    assert (Hv : User.verify_password db_user (login_password user)
                 = Raise (Exception "UnknownHashError" "hash could not be identified")).
    { unfold User.verify_password, pwd_context_verify. by rewrite Hsome, Hident. }
    split; [exact Hv|]. unfold login. by rewrite Hq, Hv.
Qed.

End Credentials.

Lemma login_absent_or_unidentified_hash_witness :
  Users.login (H := sample_collaborators) bob_login 0 0 [alice_row; bob_row]
  = Raise (HTTPException HTTP_500_INTERNAL_SERVER_ERROR
             "Login failed due to an internal error").
Proof.
  apply (proj2 (login_absent_or_unidentified_hash (H := sample_collaborators)
                  bob_login 0 0 [alice_row; bob_row] bob_row eq_refl)
           "not-a-bcrypt-hash"); reflexivity.
Defined.

(** For a stored hash without a bcrypt prefix, [verify_password] does not
    return false and login does not answer 401. *)
Lemma verify_password_raises_on_unidentified_hash :
  User.verify_password (H := sample_collaborators) bob_row "pw3" ≠ Return false
  ∧ status_of HTTP_200_OK
      (Users.login (H := sample_collaborators) bob_login 0 0 [alice_row; bob_row])
    ≠ HTTP_401_UNAUTHORIZED.
Proof. split; discriminate. Qed.

(** * The assignment loop *)

Section SetattrItems.
Context {Row : Type} (setattr : Row → string → Value → Row).

(** An attribute that [key] names holds the value the dictionary has for
    [key], and its old value when the dictionary has none. *)
Lemma setattr_items_named (proj : Row → Value) (key : string) :
  (∀ obj v, proj (setattr obj key v) = v) →
  (∀ obj k v, k ≠ key → proj (setattr obj k v) = proj obj) →
  ∀ obj (d : gmap string Value),
    proj (setattr_items setattr obj d) = default (proj obj) (d !! key).
Proof.
  intros Hset Hother obj d. unfold setattr_items.
  apply (map_fold_weak_ind
           (λ r (m : gmap string Value), proj r = default (proj obj) (m !! key))).
  - by rewrite lookup_empty.
  - intros k v m r _ IH. destruct (decide (k = key)) as [->|Hne].
    + by rewrite lookup_insert_eq, Hset.
    + by rewrite lookup_insert_ne, Hother.
Qed.

(** An attribute that no key names keeps its value. *)
Lemma setattr_items_frame {B} (proj : Row → B) :
  (∀ obj k v, proj (setattr obj k v) = proj obj) →
  ∀ obj (d : gmap string Value), proj (setattr_items setattr obj d) = proj obj.
Proof.
  intros Hframe obj d. unfold setattr_items.
  apply (map_fold_weak_ind (λ r (_ : gmap string Value), proj r = proj obj)).
  - reflexivity.
  - intros k v m r _ IH. by rewrite Hframe.
Qed.

End SetattrItems.

Lemma dump_lookup {A} (inj : A → Value) key (f : Field A) d k :
  dump inj key f d !! k
  = if decide (key = k)
    then match f with Unset => d !! k | SetTo v => Some (assigned inj v) end
    else d !! k.
Proof.
  unfold dump. destruct f as [|[a|]]; case_decide; subst;
    rewrite ?lookup_insert_eq, ?lookup_insert_ne by done; done.
Qed.

Lemma default_applied {A} (inj : A → Value) (f : Field A) old :
  default old (match f with Unset => None | SetTo v => Some (assigned inj v) end)
  = applied inj f old.
Proof. by destruct f. Qed.

Ltac setattr_cases setattr :=
  intros; unfold setattr;
  repeat match goal with
         | |- context [String.eqb ?k ?s] =>
             let E := fresh in
             destruct (String.eqb k s) eqn:E;
             [apply String.eqb_eq in E; subst; try done|]
         end; try done.

Ltac named_field setattr proj key schema_dict :=
  rewrite (setattr_items_named setattr proj key) by (setattr_cases setattr);
  unfold schema_dict; rewrite !dump_lookup, lookup_empty;
  repeat (case_decide; try done);
  apply default_applied.

Ltac framed_field setattr proj :=
  rewrite (setattr_items_frame setattr proj) by (setattr_cases setattr);
  reflexivity.

(** * Partial updates *)

Lemma task_setattr_items u old :
  setattr_items Task.setattr old (Task.TaskUpdate_dict u) = patched_task u old.
Proof.
  set (r := setattr_items Task.setattr old (Task.TaskUpdate_dict u)).
  assert (Task.id r = Task.id old) by (subst r; framed_field Task.setattr Task.id).
  assert (Task.user_id r = Task.user_id old)
    by (subst r; framed_field Task.setattr Task.user_id).
  assert (Task.created_at r = Task.created_at old)
    by (subst r; framed_field Task.setattr Task.created_at).
  assert (Task.title r = applied VStr (Task.update_title u) (Task.title old))
    by (subst r; named_field Task.setattr Task.title "title" Task.TaskUpdate_dict).
  assert (Task.description r
          = applied VStr (Task.update_description u) (Task.description old))
    by (subst r;
        named_field Task.setattr Task.description "description" Task.TaskUpdate_dict).
  assert (Task.due_date r
          = applied VDateTime (Task.update_due_date u) (Task.due_date old))
    by (subst r;
        named_field Task.setattr Task.due_date "due_date" Task.TaskUpdate_dict).
  assert (Task.is_completed r
          = applied VBool (Task.update_is_completed u) (Task.is_completed old))
    by (subst r;
        named_field Task.setattr Task.is_completed "is_completed"
          Task.TaskUpdate_dict).
  clearbody r. destruct r. unfold patched_task. cbn in *. congruence.
Qed.

Lemma note_setattr_items u old :
  setattr_items Note.setattr old (Note.NoteUpdate_dict u) = patched_note u old.
Proof.
  set (r := setattr_items Note.setattr old (Note.NoteUpdate_dict u)).
  assert (Note.id r = Note.id old) by (subst r; framed_field Note.setattr Note.id).
  assert (Note.user_id r = Note.user_id old)
    by (subst r; framed_field Note.setattr Note.user_id).
  assert (Note.created_at r = Note.created_at old)
    by (subst r; framed_field Note.setattr Note.created_at).
  assert (Note.title r = applied VStr (Note.update_title u) (Note.title old))
    by (subst r; named_field Note.setattr Note.title "title" Note.NoteUpdate_dict).
  assert (Note.content r = applied VStr (Note.update_content u) (Note.content old))
    by (subst r; named_field Note.setattr Note.content "content" Note.NoteUpdate_dict).
  clearbody r. destruct r. unfold patched_note. cbn in *. congruence.
Qed.

Lemma daily_goal_setattr_items u old :
  setattr_items DailyGoal.setattr old (DailyGoal.DailyGoalUpdate_dict u)
  = patched_daily_goal u old.
Proof.
  set (r := setattr_items DailyGoal.setattr old (DailyGoal.DailyGoalUpdate_dict u)).
  assert (DailyGoal.id r = DailyGoal.id old)
    by (subst r; framed_field DailyGoal.setattr DailyGoal.id).
  assert (DailyGoal.user_id r = DailyGoal.user_id old)
    by (subst r; framed_field DailyGoal.setattr DailyGoal.user_id).
  assert (DailyGoal.created_at r = DailyGoal.created_at old)
    by (subst r; framed_field DailyGoal.setattr DailyGoal.created_at).
  assert (DailyGoal.title r
          = applied VStr (DailyGoal.update_title u) (DailyGoal.title old))
    by (subst r; named_field DailyGoal.setattr DailyGoal.title "title"
                   DailyGoal.DailyGoalUpdate_dict).
  assert (DailyGoal.description r
          = applied VStr (DailyGoal.update_description u) (DailyGoal.description old))
    by (subst r; named_field DailyGoal.setattr DailyGoal.description "description"
                   DailyGoal.DailyGoalUpdate_dict).
  assert (DailyGoal.goal_date r
          = applied VDate (DailyGoal.update_goal_date u) (DailyGoal.goal_date old))
    by (subst r; named_field DailyGoal.setattr DailyGoal.goal_date "goal_date"
                   DailyGoal.DailyGoalUpdate_dict).
  assert (DailyGoal.is_completed r
          = applied VBool (DailyGoal.update_is_completed u)
              (DailyGoal.is_completed old))
    by (subst r; named_field DailyGoal.setattr DailyGoal.is_completed "is_completed"
                   DailyGoal.DailyGoalUpdate_dict).
  clearbody r. destruct r. unfold patched_daily_goal. cbn in *. congruence.
Qed.

(** ** Habits: the completion stamp *)

Lemma stamp_completion_other now (d : gmap string Value) key :
  key ≠ "completed_at" → Habits.stamp_completion now d !! key = d !! key.
Proof.
  intros Hne. unfold Habits.stamp_completion.
  destruct (d !! "is_completed") as [v|]; [|done].
  destruct (truthy v); by rewrite lookup_insert_ne.
Qed.

(** Whatever else the dictionary holds, a ["completed_at"] entry
    included, once it holds ["is_completed"] the stamp decides
    [completed_at]. *)
Lemma apply_update_stamps now habit (d : gmap string Value) v :
  d !! "is_completed" = Some v →
  Habit.completed_at (Habits.apply_update now habit d)
  = (if truthy v then VDateTime now else VNone)
  ∧ Habit.is_completed (Habits.apply_update now habit d) = v.
Proof.
  intros Hv. unfold Habits.apply_update. split.
  - rewrite (setattr_items_named Habit.setattr Habit.completed_at "completed_at")
      by (setattr_cases Habit.setattr).
    unfold Habits.stamp_completion. rewrite Hv.
    destruct (truthy v); by rewrite lookup_insert_eq.
  - rewrite (setattr_items_named Habit.setattr Habit.is_completed "is_completed")
      by (setattr_cases Habit.setattr).
    by rewrite stamp_completion_other, Hv.
Qed.

Lemma HabitUpdate_dict_is_completed u :
  Habit.HabitUpdate_dict u !! "is_completed"
  = match Habit.update_is_completed u with
    | Unset => None
    | SetTo v => Some (assigned VBool v)
    end.
Proof.
  unfold Habit.HabitUpdate_dict. rewrite !dump_lookup, lookup_empty.
  repeat (case_decide; try done).
Qed.

Lemma HabitUpdate_dict_completed_at u :
  Habit.HabitUpdate_dict u !! "completed_at" = None.
Proof.
  unfold Habit.HabitUpdate_dict. rewrite !dump_lookup, lookup_empty.
  repeat (case_decide; try done).
Qed.

Ltac habit_field proj key :=
  unfold Habits.apply_update;
  rewrite (setattr_items_named Habit.setattr proj key)
    by (setattr_cases Habit.setattr);
  rewrite stamp_completion_other by done;
  unfold Habit.HabitUpdate_dict; rewrite !dump_lookup, lookup_empty;
  repeat (case_decide; try done);
  apply default_applied.

Lemma habit_apply_update now u old :
  Habits.apply_update now old (Habit.HabitUpdate_dict u) = patched_habit now u old.
Proof.
  set (r := Habits.apply_update now old (Habit.HabitUpdate_dict u)).
  assert (Habit.id r = Habit.id old)
    by (subst r; unfold Habits.apply_update; framed_field Habit.setattr Habit.id).
  assert (Habit.user_id r = Habit.user_id old)
    by (subst r; unfold Habits.apply_update;
        framed_field Habit.setattr Habit.user_id).
  assert (Habit.created_at r = Habit.created_at old)
    by (subst r; unfold Habits.apply_update;
        framed_field Habit.setattr Habit.created_at).
  assert (Habit.title r = applied VStr (Habit.update_title u) (Habit.title old))
    by (subst r; habit_field Habit.title "title").
  assert (Habit.description r
          = applied VStr (Habit.update_description u) (Habit.description old))
    by (subst r; habit_field Habit.description "description").
  assert (Habit.is_completed r
          = applied VBool (Habit.update_is_completed u) (Habit.is_completed old))
    by (subst r; habit_field Habit.is_completed "is_completed").
  assert (Habit.completed_at r
          = match Habit.update_is_completed u with
            | Unset => Habit.completed_at old
            | SetTo (Some true) => VDateTime now
            | SetTo _ => VNone
            end).
  { subst r. pose proof (HabitUpdate_dict_is_completed u) as Hd.
    destruct (Habit.update_is_completed u) as [|v].
    - unfold Habits.apply_update, Habits.stamp_completion. rewrite Hd.
      rewrite (setattr_items_named Habit.setattr Habit.completed_at "completed_at")
        by (setattr_cases Habit.setattr).
      by rewrite HabitUpdate_dict_completed_at.
    - destruct (apply_update_stamps now old _ _ Hd) as [-> _].
      by destruct v as [[]|]. }
  clearbody r. destruct r. unfold patched_habit. cbn in *. congruence.
Qed.

Section PartialUpdate.
Context `{Collaborators}.

Lemma task_flush_Return obj r : Task.flush obj = Return r → r = obj.
Proof. unfold Task.flush. repeat case_decide; congruence. Qed.

Lemma habit_flush_Return obj r : Habit.flush obj = Return r → r = obj.
Proof. unfold Habit.flush. repeat case_decide; congruence. Qed.

Lemma note_flush_Return obj r : Note.flush obj = Return r → r = obj.
Proof. unfold Note.flush. repeat case_decide; congruence. Qed.

Lemma daily_goal_flush_Return obj r : DailyGoal.flush obj = Return r → r = obj.
Proof. unfold DailyGoal.flush. repeat case_decide; congruence. Qed.

Lemma update_task_applies :
  applies_exactly Task.id patched_task Tasks.update_task.
Proof.
  intros i u cu db. unfold Tasks.update_task.
  destruct (query_get Task.id db i) as [old|] eqn:Hq; [|done].
  destruct (_ && _); [done|]. rewrite task_setattr_items.
  destruct (Task.flush _) as [r|e] eqn:Hf; [|done].
  apply task_flush_Return in Hf as ->. by exists old.
Qed.

Lemma update_note_applies :
  applies_exactly Note.id patched_note Notes.update_note.
Proof.
  intros i u cu db. unfold Notes.update_note.
  destruct (query_get Note.id db i) as [old|] eqn:Hq; [|done].
  destruct (_ && _); [done|]. rewrite note_setattr_items.
  destruct (Note.flush _) as [r|e] eqn:Hf; [|done].
  apply note_flush_Return in Hf as ->. by exists old.
Qed.

Lemma update_daily_goal_applies :
  applies_exactly DailyGoal.id patched_daily_goal DailyGoals.update_daily_goal.
Proof.
  intros i u cu db. unfold DailyGoals.update_daily_goal.
  destruct (query_get DailyGoal.id db i) as [old|] eqn:Hq; [|done].
  destruct (_ && _); [done|]. rewrite daily_goal_setattr_items.
  destruct (DailyGoal.flush _) as [r|e] eqn:Hf; [|done].
  apply daily_goal_flush_Return in Hf as ->. by exists old.
Qed.

Lemma update_habit_applies now :
  applies_exactly Habit.id (patched_habit now)
    (λ i u, Habits.update_habit i u now).
Proof.
  intros i u cu db. unfold Habits.update_habit.
  destruct (query_get Habit.id db i) as [old|] eqn:Hq; [|done].
  destruct (_ && _); [done|]. rewrite habit_apply_update.
  destruct (Habit.flush _) as [r|e] eqn:Hf; [|done].
  apply habit_flush_Return in Hf as ->. by exists old.
Qed.







End PartialUpdate.



(** * Habits: [completed_at] and [is_completed] *)

Section HabitInvariant.
Context `{Collaborators}.



Lemma query_get_elem_of {Row} (row_id : Row → Z) db i row :
  query_get row_id db i = Some row → row ∈ db ∧ row_id row = i.
Proof.
  unfold query_get. intros Hfind. apply find_some in Hfind as [Hin Hid].
  split; [by apply list_elem_of_In|]. by apply Z.eqb_eq.
Qed.


End HabitInvariant.


(** * Creation *)

(** C6. A created task, habit or daily goal has [is_completed] false and
    belongs to the authenticated user, whatever the request carries. *)
Theorem create_forces_initial_state `{Collaborators} :
  (∀ task now new_id current_user db,
     ∃ row, Tasks.create_task task now new_id current_user db
            = (Return row, db ++ [row])
            ∧ Task.is_completed row = VBool false
            ∧ Task.user_id row = User.id current_user)
  ∧ (∀ habit now new_id current_user db,
       ∃ row, Habits.create_habit habit now new_id current_user db
              = (Return row, db ++ [row])
              ∧ Habit.is_completed row = VBool false
              ∧ Habit.user_id row = User.id current_user)
  ∧ (∀ goal now new_id current_user db,
       ∃ row, DailyGoals.create_daily_goal goal now new_id current_user db
              = (Return row, db ++ [row])
              ∧ DailyGoal.is_completed row = VBool false
              ∧ DailyGoal.user_id row = User.id current_user).
Proof.
  repeat split; intros; eexists; (split; [reflexivity|]); split; reflexivity.
Qed.

(** * Listing *)

#[global] Instance newer_first_trans {Row} (created_at : Row → Z) :
  Transitive (newer_first created_at).
Proof. unfold newer_first. intros x y z. lia. Qed.

#[global] Instance newer_first_total {Row} (created_at : Row → Z) :
  Total (newer_first created_at).
Proof. unfold newer_first. intros x y. lia. Qed.

Lemma filter_filter_andb {A} (f g : A → bool) l :
  List.filter g (List.filter f l) = List.filter (λ x, f x && g x) l.
Proof.
  induction l as [|x l IH]; [done|]. cbn.
  destruct (f x); cbn; [|done]. destruct (g x); by rewrite IH.
Qed.

Lemma filter_ext_bool {A} (f g : A → bool) l :
  (∀ x, f x = g x) → List.filter f l = List.filter g l.
Proof. intros Hfg. induction l as [|x l IH]; [done|]. cbn. by rewrite Hfg, IH. Qed.

Lemma listing_sorted {Row} (created_at : Row → Z) keep db :
  StronglySorted (newer_first created_at) (listing created_at keep db).
Proof. unfold listing, order_by_desc. apply StronglySorted_merge_sort; apply _. Qed.

Lemma listing_elem_of {Row} (created_at : Row → Z) keep db x :
  x ∈ listing created_at keep db ↔ x ∈ db ∧ keep x = true.
Proof.
  unfold listing, order_by_desc. rewrite merge_sort_Permutation.
  rewrite !list_elem_of_In. apply filter_In.
Qed.

Lemma limit_offset_length {Row} limit offset (rows : list Row) :
  0 ≤ limit → Z.of_nat (length (limit_offset limit offset rows)) ≤ limit.
Proof.
  intros Hl. unfold limit_offset. rewrite length_take. lia.
Qed.

Ltac as_listing :=
  unfold listing; do 2 f_equal;
  repeat match goal with
         | |- context [match ?o with Some _ => _ | None => _ end] =>
             is_var o; destruct o
         end;
  unfold truthy;
  repeat match goal with
         | |- context [String.eqb ?s ""] =>
             let E := fresh in destruct (String.eqb s "") eqn:E
         end;
  cbn [negb];
  rewrite ?filter_filter_andb;
  apply filter_ext_bool; intros x;
  unfold matches_completed, matches_date, matches_search;
  repeat match goal with H : String.eqb _ "" = _ |- _ => rewrite H end;
  rewrite ?andb_true_r, ?andb_assoc, ?andb_true_r; reflexivity.

Lemma get_tasks_listing q current_user db :
  list_tasks q current_user db
  = Return (listing Task.created_at (keep_task current_user q) db).
Proof.
  unfold list_tasks, Tasks.get_tasks, keep_task.
  destruct q as [d c s l o]; cbn [q_completed q_search]. as_listing.
Qed.

Lemma get_my_habits_listing q current_user db :
  list_habits q current_user db
  = Return (listing Habit.created_at (keep_habit current_user q) db).
Proof.
  unfold list_habits, Habits.get_my_habits, keep_habit.
  destruct q as [d c s l o]; cbn [q_completed q_search]. as_listing.
Qed.

Lemma get_user_notes_listing q current_user db :
  list_notes q current_user db
  = Return (listing Note.created_at (keep_note current_user q) db).
Proof.
  unfold list_notes, Notes.get_user_notes, keep_note.
  destruct q as [d c s l o]; cbn [q_completed q_search]. as_listing.
Qed.

Lemma get_daily_goals_listing q current_user db :
  list_daily_goals q current_user db
  = if (1 <=? q_limit q) && (q_limit q <=? 100) && (0 <=? q_offset q)
    then Return (limit_offset (q_limit q) (q_offset q)
                   (listing DailyGoal.created_at (keep_daily_goal current_user q) db))
    else Raise RequestValidationError.
Proof.
  unfold list_daily_goals, DailyGoals.get_daily_goals, keep_daily_goal.
  destruct (_ && _); [|done]. unfold DailyGoals.select_daily_goals.
  destruct q as [d c s l o];
    cbn [q_completed q_search q_goal_date q_limit q_offset].
  f_equal. f_equal. as_listing.
Qed.

(** ** [ILIKE] and substrings *)

Lemma lower_append a b : lower (a +:+ b) = lower a +:+ lower b.
Proof. induction a as [|c a IH]; [done|]. simpl. by rewrite IH. Qed.

Lemma lower_char_wildcard c : wildcard (lower_char c) = wildcard c.
Proof. destruct c as [[] [] [] [] [] [] [] []]; reflexivity. Qed.

Lemma wildcard_free_lower s : wildcard_free (lower s) = wildcard_free s.
Proof.
  induction s as [|c s IH]; [done|]. cbn. by rewrite lower_char_wildcard, IH.
Qed.

Lemma like_pattern_literal p rest :
  wildcard_free p = true →
  Sql.like_pattern (p +:+ rest) = literal p ++ Sql.like_pattern rest.
Proof.
  induction p as [|c p IH]; [done|]. cbn [wildcard_free].
  intros [Hc Hp]%andb_prop. apply negb_true_iff in Hc. unfold wildcard in Hc.
  apply orb_false_elim in Hc as [Hc Hbackslash].
  apply orb_false_elim in Hc as [Hpercent Hunderscore].
  change (String c p +:+ rest) with (String c (p +:+ rest)).
  cbn [Sql.like_pattern literal app].
  rewrite Hpercent, Hunderscore, Hbackslash. by rewrite IH.
Qed.

Lemma like_match_any_seq t : Sql.like_match [Sql.AnySeq] t = true.
Proof. induction t as [|c t IH]; [done|]. cbn in *. exact IH. Qed.

Lemma like_match_literal_prefix p t :
  Sql.like_match (literal p ++ [Sql.AnySeq]) t = String.prefix p t.
Proof.
  revert t. induction p as [|c p IH]; intros t.
  - cbn [literal app]. rewrite like_match_any_seq. by destruct t.
  - destruct t as [|d t]; [done|]. cbn [literal app Sql.like_match String.prefix].
    rewrite IH. destruct (ascii_dec c d) as [->|Hne].
    + by rewrite Ascii.eqb_refl.
    + by apply Ascii.eqb_neq in Hne as ->.
Qed.

Lemma like_match_any_seq_unfold p t :
  Sql.like_match (Sql.AnySeq :: p) t
  = Sql.like_match p t
    || match t with
       | EmptyString => false
       | String _ t' => Sql.like_match (Sql.AnySeq :: p) t'
       end.
Proof. by destruct t. Qed.

Lemma like_match_contains p t :
  Sql.like_match (Sql.AnySeq :: literal p ++ [Sql.AnySeq]) t = contains p t.
Proof.
  induction t as [|c t IH]; rewrite like_match_any_seq_unfold;
    cbn [contains]; rewrite like_match_literal_prefix; [done|].
  by rewrite IH.
Qed.

(** For a term without [%], [_] and backslash, the search of the
    controllers is the case-insensitive substring test. *)
Lemma ilike_icontains term text :
  wildcard_free term = true →
  Sql.ilike (VStr text) ("%" +:+ term +:+ "%") = icontains term text.
Proof.
  intros Hfree. unfold Sql.ilike, icontains.
  change ("%" +:+ term +:+ "%") with (String "%" (term +:+ "%")).
  cbn [lower]. rewrite lower_append.
  change (lower_char "%") with "%"%char.
  change (lower "%") with "%".
  cbn [Sql.like_pattern]. change (Ascii.eqb "%" "%") with true. cbn match.
  rewrite like_pattern_literal by (by rewrite wildcard_free_lower).
  change (Sql.like_pattern "%") with [Sql.AnySeq].
  apply like_match_contains.
Qed.

(** A term with a wildcard is a pattern: ["r_n"] finds ["run"], of which
    it is no substring. *)
Lemma ilike_underscore :
  Sql.ilike (VStr "run") ("%" +:+ "r_n" +:+ "%") = true
  ∧ icontains "r_n" "run" = false.
Proof. split; reflexivity. Qed.

(** C9, as the code has it. Every list operation returns the rows of the
    current user that pass its filters, newest first.  The filters are: for
    tasks, completion status and search over title and description; for
    habits, completion status; for notes, search over title and content;
    for daily goals, date, completion status and search over title and
    description.  Only the daily goals are paginated, by a limit from 1 to
    100 and an offset from 0; a limit or offset outside is refused.  The
    search is an [ILIKE] pattern, which for a term without wildcards is the
    case-insensitive substring test. *)
Theorem list_operations_as_declared q current_user :
  (∀ db, list_tasks q current_user db
         = Return (listing Task.created_at (keep_task current_user q) db))
  ∧ (∀ db, list_habits q current_user db
           = Return (listing Habit.created_at (keep_habit current_user q) db))
  ∧ (∀ db, list_notes q current_user db
           = Return (listing Note.created_at (keep_note current_user q) db))
  ∧ (∀ db, list_daily_goals q current_user db
           = if (1 <=? q_limit q) && (q_limit q <=? 100) && (0 <=? q_offset q)
             then Return (limit_offset (q_limit q) (q_offset q)
                            (listing DailyGoal.created_at
                               (keep_daily_goal current_user q) db))
             else Raise RequestValidationError)
  ∧ (∀ (Row : Type) (created_at : Row → Z) keep db,
       StronglySorted (newer_first created_at) (listing created_at keep db)
       ∧ ∀ x, x ∈ listing created_at keep db ↔ x ∈ db ∧ keep x = true)
  ∧ (∀ (Row : Type) limit offset (rows : list Row),
       0 ≤ limit → Z.of_nat (length (limit_offset limit offset rows)) ≤ limit)
  ∧ (∀ term text,
       wildcard_free term = true →
       Sql.ilike (VStr text) ("%" +:+ term +:+ "%") = icontains term text).
Proof.
  split; [intros; apply get_tasks_listing|].
  split; [intros; apply get_my_habits_listing|].
  split; [intros; apply get_user_notes_listing|].
  split; [intros; apply get_daily_goals_listing|].
  split; [intros; split; [apply listing_sorted|intros; apply listing_elem_of]|].
  split; [intros; by apply limit_offset_length|].
  intros. by apply ilike_icontains.
Qed.

(** A request for the first page of one task gets both tasks of the user. *)
Lemma task_list_ignores_limit :
  q_limit first_page_of_one = 1
  ∧ list_tasks first_page_of_one carol [carol_task 1 100; carol_task 2 200]
    = Return [carol_task 2 200; carol_task 1 100].
Proof. split; reflexivity. Qed.

(** * The five routers *)

(** C1, as the code has it. Tasks, habits, notes and daily goals each have
    a single-item get, update and delete, and each of the twelve answers
    404 when no row has the id, whoever asks; 403 when the row exists and
    the actor is neither ADMIN nor its owner; and neither of the two
    otherwise.  The users router has no single-item operation. *)
Theorem single_item_operations_follow_rule `{Collaborators} :
  Forall (λ r, ∀ o, ∃ e, Routes.single_item r o = Some e ∧ follows_rule e)
         [Routes.Tasks; Routes.Habits; Routes.Notes; Routes.DailyGoals]
  ∧ ∀ o, Routes.single_item Routes.Users o = None.
Proof.
  split; [|by intros []].
  repeat constructor; intros []; eexists; (split; [reflexivity|]); cbn.
  - apply get_single_task_rule.
  - apply update_task_rule.
  - apply delete_task_rule.
  - apply get_habit_rule.
  - apply update_habit_rule.
  - apply delete_habit_rule.
  - apply get_note_rule.
  - apply update_note_rule.
  - apply delete_note_rule.
  - apply get_daily_goal_rule.
  - apply update_daily_goal_rule.
  - apply delete_daily_goal_rule.
Qed.

(** Not every one of the five resource types has single-item operations
    that follow the rule: users have none. *)
Lemma users_have_no_single_item_operation :
  ¬ ∀ r o, ∃ e, Routes.single_item r o = Some e
                ∧ follows_rule (H := sample_collaborators) e.
Proof.
  intros Hall.
  destruct (Hall Routes.Users Routes.GetOne) as (e & He & _). discriminate.
Qed.

(** * The scenarios of the specification, run *)

Example alice_logs_in :
  Users.login (H := sample_collaborators) alice_login 0 0 [alice_row]
  = Return (dict [
      ("token", VStr "header.1.CUSTOMER.your-secret-key-change-in-production");
      ("message", VStr "Login successful");
      ("role", VStr "CUSTOMER") ]).
Proof. vm_compute. reflexivity. Qed.

Example alice_wrong_password :
  Users.login (H := sample_collaborators)
    {| UserSerializers.login_username := "alice";
       UserSerializers.login_password := "pw2" |} 0 0 [alice_row]
  = Raise (HTTPException 401 "Invalid username or password").
Proof. vm_compute. reflexivity. Qed.

Example alice_task_life_cycle :
  Tasks.create_task (H := sample_collaborators) t1 50 1 alice_row []
  = (Return alice_task, [alice_task])
  ∧ Tasks.get_single_task 1 alice_row [alice_task] = Return alice_task
  ∧ (Tasks.delete_task 1 alice_row [alice_task]).2 = []
  ∧ Tasks.get_single_task 1 alice_row []
    = Raise (HTTPException 404 "Task with id 1 not found").
Proof. repeat split; vm_compute; reflexivity. Qed.

Example bob_note_carol_and_admin :
  Notes.get_note 4 carol [bob_note]
  = Raise (HTTPException 403 "You can only view your own notes")
  ∧ Notes.get_note 4 root [bob_note] = Return bob_note
  ∧ Notes.get_note 5 carol [bob_note]
    = Raise (HTTPException 404 "Note with id 5 not found").
Proof. repeat split; vm_compute; reflexivity. Qed.

Example update_title_only :
  (Tasks.update_task (H := sample_collaborators) 1
     {| Task.update_title := SetTo (Some "t2");
        Task.update_description := Unset;
        Task.update_due_date := Unset;
        Task.update_is_completed := Unset |} alice_row [alice_task]).2
  = [ {| Task.id := 1;
         Task.title := VStr "t2";
         Task.description := VStr "d1";
         Task.due_date := VNone;
         Task.is_completed := VBool false;
         Task.created_at := 50;
         Task.user_id := 1 |} ].
Proof. vm_compute. reflexivity. Qed.

(** A title set to null passes the schema and fails at the column: the
    handler answers 500 with a detail that starts with its own words and
    goes on with the text of the error, and the table is as it was. *)
Example update_title_null :
  ∃ detail,
    Tasks.update_task (H := sample_collaborators) 1
      {| Task.update_title := SetTo None;
         Task.update_description := Unset;
         Task.update_due_date := Unset;
         Task.update_is_completed := Unset |} alice_row [alice_task]
    = (Raise (HTTPException 500 detail), [alice_task])
    ∧ String.prefix "Failed to update task: " detail = true.
Proof. eexists. split; vm_compute; reflexivity. Qed.

(** * Registration and login together *)

Lemma upper_empty s : upper s = "" → s = "".
Proof. by destruct s. Qed.

Lemma upper_char_lower_char c : upper_char (lower_char c) = upper_char c.
Proof. destruct c as [[] [] [] [] [] [] [] []]; reflexivity. Qed.

Lemma upper_lower s : upper (lower s) = upper s.
Proof.
  induction s as [|c s IH]; [done|]. cbn. by rewrite upper_char_lower_char, IH.
Qed.

Lemma lower_char_upper_char c : lower_char (upper_char c) = lower_char c.
Proof. destruct c as [[] [] [] [] [] [] [] []]; reflexivity. Qed.

Lemma lower_upper s : lower (upper s) = lower s.
Proof.
  induction s as [|c s IH]; [done|]. cbn. by rewrite lower_char_upper_char, IH.
Qed.

Lemma find_app_None {A} (f : A → bool) l1 l2 :
  find f l1 = None → find f (l1 ++ l2) = find f l2.
Proof.
  induction l1 as [|x l1 IH]; [done|]. cbn. destruct (f x); [done|exact IH].
Qed.

Lemma find_app_Some {A} (f : A → bool) l1 l2 x :
  find f l1 = Some x → find f (l1 ++ l2) = Some x.
Proof.
  induction l1 as [|y l1 IH]; [done|]. cbn. destruct (f y); [done|exact IH].
Qed.

Section RegisterLogin.
Context `{Collaborators}.
Import UserSerializers Users.

(** What [create_user] leaves in the table: the rows it found, or those
    and one more, which the storage engine accepted. *)
Lemma create_user_rows user salt new_id now_exp now_iat db concurrent :
  let result := create_user user salt new_id now_exp now_iat db concurrent in
  result.2 = db ++ concurrent
  ∨ ∃ hash,
      bcrypt_hash salt (password user) = Return hash
      ∧ Users.add_commit (registered user new_id hash) (db ++ concurrent)
        = Return result.2
      ∧ result.2 = (db ++ concurrent) ++ [registered user new_id hash].
Proof.
  cbn zeta. unfold create_user.
  destruct (query_username_or_email db _ _) as [eu|].
  { left. by destruct (String.eqb _ _). }
  unfold User.set_password, pwd_context_hash.
  destruct (bcrypt_hash salt (password user)) as [hash|e] eqn:Hhash; [|by left].
  cbn [User.id User.username User.email User.role User.password_hash].
  fold (registered user new_id hash).
  destruct (Users.add_commit (registered user new_id hash) (db ++ concurrent))
    as [rows|e] eqn:Hadd; [|by left].
  right. exists hash. cbn [snd]. split; [done|]. split; [done|].
  unfold Users.add_commit in Hadd.
  repeat match type of Hadd with
         | (if ?b then _ else _) = _ => destruct b; [done|]
         end.
  congruence.
Qed.

Lemma create_user_success_rows user salt new_id now_exp now_iat db concurrent hash :
  (∀ row, row ∈ db ++ concurrent → ¬ taken_by user row) →
  bcrypt_hash salt (password user) = Return hash →
  (create_user user salt new_id now_exp now_iat db concurrent).2
  = (db ++ concurrent) ++ [registered user new_id hash].
Proof.
  intros Hfree Hhash. unfold create_user.
  rewrite query_username_or_email_None
    by (intros row Hin; apply Hfree, elem_of_app; by left).
  unfold User.set_password, pwd_context_hash. rewrite Hhash.
  cbn [User.id User.username User.email User.role User.password_hash].
  fold (registered user new_id hash).
  rewrite add_commit_fresh; [done|].
  intros row Hin. pose proof (Hfree row Hin) as Hrow.
  unfold taken_by in Hrow. cbn. split; intros E; apply Hrow; auto.
Qed.

Lemma user_role_truthy user : User.role_truthy (Some (user_role user)) = true.
Proof.
  unfold user_role. destruct (role user) as [r|]; [|done]. cbn.
  destruct (String.eqb r "") eqn:Hr; [done|]. cbn.
  destruct (String.eqb (upper r) "") eqn:Hu; [|done].
  apply String.eqb_eq, upper_empty in Hu. subst. done.
Qed.

(** X1. A user who registered with one of the two roles the application
    knows, CUSTOMER (also by default) or ADMIN in any casing, can log in:
    when the password library accepts the hash it made and the token
    library signs, a login with the registered username and password, on
    the table the registration left, returns the token issued for the new
    row together with the stored role. *)
Theorem register_then_login user salt new_id t1 t2 t3 t4 db concurrent hash token :
  user_role user = UserRole.CUSTOMER ∨ user_role user = UserRole.ADMIN →
  (∀ row, row ∈ db ++ concurrent → ¬ taken_by user row) →
  bcrypt_hash salt (password user) = Return hash →
  bcrypt_identify hash = true →
  bcrypt_verify (password user) hash = Return true →
  User.generate_token (registered user new_id hash) t3 t4 = Return token →
  login {| login_username := username user; login_password := password user |}
    t3 t4 (create_user user salt new_id t1 t2 db concurrent).2
  = Return (dict [ ("token", VStr token);
                   ("message", VStr "Login successful");
                   ("role", VStr (user_role user)) ]).
Proof.
  intros _ Hfree Hhash Hident Hverify Htoken.
  rewrite (create_user_success_rows _ _ _ _ _ _ _ hash) by done.
  unfold login, query_username. cbn [login_username login_password].
  rewrite find_app_None.
  2:{ destruct (find _ (db ++ concurrent)) as [x|] eqn:Hfind; [|done].
      apply find_some in Hfind as [Hin Hx]. apply list_elem_of_In in Hin.
      apply String.eqb_eq in Hx. destruct (Hfree x Hin). by left. }
  cbn [find registered User.username]. rewrite String.eqb_refl.
  unfold User.verify_password, pwd_context_verify.
  change (User.password_hash (registered user new_id hash)) with (Some hash).
  change (User.role (registered user new_id hash)) with (Some (user_role user)).
  cbn match. rewrite Hident, Hverify, Htoken. by rewrite user_role_truthy.
Qed.

Lemma login_unknown_user user now_exp now_iat db :
  query_username db (login_username user) = None →
  login user now_exp now_iat db
  = Raise (HTTPException HTTP_401_UNAUTHORIZED "Invalid username or password").
Proof. intros Hq. unfold login. by rewrite Hq. Qed.

(** X2. A login with an unknown username and a login with a wrong password
    get the same answer: 401 with the same detail. *)
Theorem login_failure_uniform user now_exp now_iat db :
  query_username db (login_username user) = None
  ∨ (∃ db_user, query_username db (login_username user) = Some db_user
                ∧ User.verify_password db_user (login_password user)
                  = Return false) →
  login user now_exp now_iat db
  = Raise (HTTPException HTTP_401_UNAUTHORIZED "Invalid username or password").
Proof.
  intros [Hq|(db_user & Hq & Hv)].
  - by apply login_unknown_user.
  - by apply login_wrong_password with db_user.
Qed.

(** X3. The table that [create_user] leaves is the table it found, or that
    table and one row more with the key, username and email of the
    request; either way no username and no email occurs twice if none did
    before. *)
Theorem registration_keeps_unique user salt new_id now_exp now_iat db concurrent :
  NoDup (map User.username (db ++ concurrent)) →
  NoDup (map User.email (db ++ concurrent)) →
  let result := create_user user salt new_id now_exp now_iat db concurrent in
  (result.2 = db ++ concurrent
   ∨ ∃ row, result.2 = (db ++ concurrent) ++ [row]
            ∧ User.id row = new_id
            ∧ User.username row = username user
            ∧ User.email row = email user)
  ∧ NoDup (map User.username result.2)
  ∧ NoDup (map User.email result.2).
Proof.
  intros Hu He result.
  destruct (create_user_rows user salt new_id now_exp now_iat db concurrent)
    as [Hsame|(hash & _ & Hadd & Hrows)].
  - subst result. rewrite Hsame. split; [by left|done].
  - subst result. split; [right; by exists (registered user new_id hash)|].
    rewrite Hrows, !(map_app _ (db ++ concurrent)). cbn [map].
    unfold Users.add_commit in Hadd.
    destruct (existsb _ (db ++ concurrent)) eqn:Eu; [done|].
    destruct (existsb _ (db ++ concurrent)) eqn:Ee in Hadd; [done|].
    assert (Hnot : ∀ (proj : UserModel → string) v,
               existsb (λ row, String.eqb (proj row) v) (db ++ concurrent) = false →
               v ∉ map proj (db ++ concurrent)).
    { intros proj v Hex Hin. apply list_elem_of_In, in_map_iff in Hin
        as (row & Hrow & Hin).
      assert (existsb (λ row, String.eqb (proj row) v) (db ++ concurrent) = true)
        as Htrue; [|congruence].
      apply existsb_exists. exists row. split; [done|]. by apply String.eqb_eq. }
    split; apply NoDup_app; (split; [done|]);
      (split; [|apply NoDup_singleton]);
      intros x Hx ->%list_elem_of_singleton.
    + exact (Hnot User.username _ Eu Hx).
    + exact (Hnot User.email _ Ee Hx).
Qed.

End RegisterLogin.

Lemma register_then_login_witness :
  Users.login (H := sample_collaborators) alice_login 5 6
    (Users.create_user (H := sample_collaborators) alice "salt" 1 0 0 [] []).2
  = Return (dict [
      ("token", VStr "header.1.CUSTOMER.your-secret-key-change-in-production");
      ("message", VStr "Login successful");
      ("role", VStr "CUSTOMER") ]).
Proof.
  apply (register_then_login (H := sample_collaborators)
           alice "salt" 1 0 0 5 6 [] [] "$2b$12$saltpw1").
  - left. reflexivity.
  - intros row Hin. inversion Hin.
  - reflexivity.
  - reflexivity.
  - reflexivity.
  - reflexivity.
Defined.

Lemma login_failure_uniform_witness :
  Users.login (H := sample_collaborators)
    {| UserSerializers.login_username := "alice";
       UserSerializers.login_password := "pw2" |} 0 0 [alice_row]
  = Raise (HTTPException HTTP_401_UNAUTHORIZED "Invalid username or password").
Proof.
  apply (login_failure_uniform (H := sample_collaborators)).
  right. exists alice_row. split; reflexivity.
Defined.

Lemma registration_keeps_unique_witness :
  NoDup (map User.username
           (Users.create_user (H := sample_collaborators)
              mallory "salt" 2 0 0 [alice_row] []).2).
Proof.
  apply (registration_keeps_unique (H := sample_collaborators)
           mallory "salt" 2 0 0 [alice_row] []).
  - apply NoDup_singleton.
  - apply NoDup_singleton.
Defined.

(** X4. Any casing of "admin" is stored as ["ADMIN"], and the registered
    row then passes the admin test of the controllers; any casing of
    "customer" is stored as ["CUSTOMER"]. *)
Theorem registration_canonical_roles user r new_id hash :
  UserSerializers.role user = Some r →
  (lower r = "admin" →
   Users.user_role user = UserRole.ADMIN
   ∧ User.is_admin (registered user new_id hash) = true
   ∧ User.role_ne_admin (registered user new_id hash) = false)
  ∧ (lower r = "customer" →
     Users.user_role user = UserRole.CUSTOMER
     ∧ User.is_customer (registered user new_id hash) = true
     ∧ User.role_ne_admin (registered user new_id hash) = true).
Proof.
  intros Hrole.
  assert (Hupper : r ≠ "" → Users.user_role user = upper r).
  { by apply user_role_upper. }
  split; intros Hlower.
  - assert (Hr : Users.user_role user = "ADMIN").
    { rewrite Hupper; [|by intros ->]. by rewrite <- upper_lower, Hlower. }
    unfold User.is_admin, User.role_ne_admin, registered. cbn. by rewrite Hr.
  - assert (Hr : Users.user_role user = "CUSTOMER").
    { rewrite Hupper; [|by intros ->]. by rewrite <- upper_lower, Hlower. }
    unfold User.is_customer, User.role_ne_admin, registered. cbn. by rewrite Hr.
Qed.

Lemma registration_canonical_roles_witness :
  Users.user_role
    {| UserSerializers.username := "eve"; UserSerializers.email := "e@x.com";
       UserSerializers.password := "pw6"; UserSerializers.role := Some "aDmIn" |}
  = UserRole.ADMIN.
Proof.
  apply (proj1 (registration_canonical_roles
                  {| UserSerializers.username := "eve";
                     UserSerializers.email := "e@x.com";
                     UserSerializers.password := "pw6";
                     UserSerializers.role := Some "aDmIn" |}
                  "aDmIn" 1 "h" eq_refl) eq_refl).
Defined.

(** * Rows by key *)

Section ByKey.
Context {Row : Type} (row_id : Row → Z).

Lemma query_get_delete_commit obj db :
  query_get row_id (delete_commit row_id obj db) (row_id obj) = None.
Proof.
  unfold query_get, delete_commit.
  induction db as [|x db IH]; [done|]. cbn.
  destruct (row_id x =? row_id obj) eqn:E; cbn; [done|]. by rewrite E.
Qed.

Lemma query_get_add_commit obj db :
  query_get row_id db (row_id obj) = None →
  query_get row_id (add_commit obj db) (row_id obj) = Some obj.
Proof.
  intros Hnone. unfold query_get, add_commit in *.
  rewrite find_app_None by done. cbn. by rewrite Z.eqb_refl.
Qed.

Lemma query_get_update_commit obj old db :
  query_get row_id db (row_id obj) = Some old →
  query_get row_id (update_commit row_id obj db) (row_id obj) = Some obj.
Proof.
  unfold query_get, update_commit.
  induction db as [|x db IH]; [done|]. cbn.
  destruct (row_id x =? row_id obj) eqn:E; cbn.
  - by rewrite Z.eqb_refl.
  - rewrite E. exact IH.
Qed.

(** With distinct keys, a commit rewrites one row: a projection on which
    the new row agrees with the old one is the same on the whole table. *)
Lemma update_commit_map {B} (f : Row → B) obj old db :
  NoDup (map row_id db) →
  query_get row_id db (row_id obj) = Some old →
  f obj = f old →
  map f (update_commit row_id obj db) = map f db.
Proof.
  unfold query_get, update_commit. intros Hnodup Hq Hf.
  induction db as [|x db IH]; [done|]. cbn in *.
  apply NoDup_cons in Hnodup as [Hx Hnodup].
  destruct (row_id x =? row_id obj) eqn:E.
  - injection Hq as ->. f_equal; [done|].
    apply Z.eqb_eq in E. rewrite <- E.
    clear IH Hnodup. induction db as [|y db IH]; [done|]. cbn in *.
    apply not_elem_of_cons in Hx as [Hy Hx].
    destruct (row_id y =? row_id old) eqn:E'.
    { apply Z.eqb_eq in E'. congruence. }
    f_equal. by apply IH.
  - f_equal. by apply IH.
Qed.

End ByKey.

(** * Create, get, update and delete together *)

Section Composed.
Context `{Collaborators}.

Tactic Notation "delete_by_id" reference(delete) reference(get) constr(row_id) :=
  intros i cu db; unfold delete;
  destruct (query_get row_id db i) as [old|] eqn:Hq; [|done];
  destruct (_ && _); [done|];
  apply query_get_elem_of in Hq as [_ <-];
  pose proof (query_get_delete_commit row_id old db) as Hgone;
  split; [done|]; split; intros actor; [unfold get|]; by rewrite Hgone.

Lemma delete_task_by_id :
  deletes_by_id Task.id Tasks.get_single_task Tasks.delete_task.
Proof. delete_by_id Tasks.delete_task Tasks.get_single_task Task.id. Qed.

Lemma delete_habit_by_id :
  deletes_by_id Habit.id Habits.get_habit Habits.delete_habit.
Proof. delete_by_id Habits.delete_habit Habits.get_habit Habit.id. Qed.

Lemma delete_note_by_id :
  deletes_by_id Note.id Notes.get_note Notes.delete_note.
Proof. delete_by_id Notes.delete_note Notes.get_note Note.id. Qed.

Lemma delete_daily_goal_by_id :
  deletes_by_id DailyGoal.id DailyGoals.get_daily_goal DailyGoals.delete_daily_goal.
Proof.
  delete_by_id DailyGoals.delete_daily_goal DailyGoals.get_daily_goal DailyGoal.id.
Qed.

(** X5. For tasks, habits, notes and daily goals: a delete that succeeds
    removes the rows with the id and nothing else; a get of the id is then
    answered 404 for every actor, and so is a second delete; a delete that
    is refused leaves the table as it was. *)
Theorem delete_removes_the_row :
  deletes_by_id Task.id Tasks.get_single_task Tasks.delete_task
  ∧ deletes_by_id Habit.id Habits.get_habit Habits.delete_habit
  ∧ deletes_by_id Note.id Notes.get_note Notes.delete_note
  ∧ deletes_by_id DailyGoal.id DailyGoals.get_daily_goal
      DailyGoals.delete_daily_goal.
Proof.
  split; [exact delete_task_by_id|].
  split; [exact delete_habit_by_id|].
  split; [exact delete_note_by_id|exact delete_daily_goal_by_id].
Qed.

Tactic Notation "create_then_get" reference(create) reference(get) constr(row_id)
    constr(owner) :=
  intros c now new_id cu db Hfresh; unfold create; cbn;
  eexists; split; [reflexivity|];
  unfold get;
  match goal with
  | |- context [query_get row_id (db ++ [?row]) new_id] =>
      let Hq := fresh in
      pose proof (query_get_add_commit row_id row db Hfresh) as Hq;
      change (query_get row_id (db ++ [row]) new_id = Some row) in Hq;
      rewrite Hq
  end;
  change (owner _) with (User.id cu); by rewrite Z.eqb_refl, ?andb_false_r.

Lemma create_task_readable :
  created_is_readable Task.id Tasks.create_task Tasks.get_single_task.
Proof.
  create_then_get Tasks.create_task Tasks.get_single_task Task.id Task.user_id.
Qed.

Lemma create_habit_readable :
  created_is_readable Habit.id Habits.create_habit Habits.get_habit.
Proof.
  create_then_get Habits.create_habit Habits.get_habit Habit.id Habit.user_id.
Qed.

Lemma create_note_readable :
  created_is_readable Note.id Notes.create_note Notes.get_note.
Proof. create_then_get Notes.create_note Notes.get_note Note.id Note.user_id. Qed.

Lemma create_daily_goal_readable :
  created_is_readable DailyGoal.id DailyGoals.create_daily_goal
    DailyGoals.get_daily_goal.
Proof.
  create_then_get DailyGoals.create_daily_goal DailyGoals.get_daily_goal
    DailyGoal.id DailyGoal.user_id.
Qed.

(** X6. For tasks, habits, notes and daily goals: a create under a key
    that no row has appends one row, and the creator's get of that key
    returns that row. *)
Theorem created_row_is_readable :
  created_is_readable Task.id Tasks.create_task Tasks.get_single_task
  ∧ created_is_readable Habit.id Habits.create_habit Habits.get_habit
  ∧ created_is_readable Note.id Notes.create_note Notes.get_note
  ∧ created_is_readable DailyGoal.id DailyGoals.create_daily_goal
      DailyGoals.get_daily_goal.
Proof.
  split; [exact create_task_readable|].
  split; [exact create_habit_readable|].
  split; [exact create_note_readable|exact create_daily_goal_readable].
Qed.

End Composed.

Section Updated.
Context `{Collaborators}.

Lemma query_get_patched {Row} (row_id : Row → Z) (patched old : Row) db i :
  query_get row_id db i = Some old →
  row_id patched = row_id old →
  query_get row_id (update_commit row_id patched db) i = Some patched.
Proof.
  intros Hq Hid. pose proof (query_get_elem_of _ _ _ _ Hq) as [_ Hi].
  rewrite <- Hi, <- Hid. apply query_get_update_commit with old.
  by rewrite Hid, Hi.
Qed.

Lemma update_task_readable :
  updated_is_readable Tasks.update_task Tasks.get_single_task.
Proof.
  intros i u cu db row db' Hupd. unfold Tasks.update_task in Hupd.
  destruct (query_get Task.id db i) as [old|] eqn:Hq; [|done].
  destruct (_ && _) eqn:Hperm; [done|].
  rewrite task_setattr_items in Hupd.
  destruct (Task.flush _) as [r|e] eqn:Hf; [|done].
  apply task_flush_Return in Hf as ->. injection Hupd as <- <-.
  unfold Tasks.get_single_task.
  rewrite (query_get_patched Task.id _ old) by done.
  change (Task.user_id (patched_task u old)) with (Task.user_id old).
  by rewrite Hperm.
Qed.

Lemma update_habit_readable now :
  updated_is_readable (λ i u, Habits.update_habit i u now) Habits.get_habit.
Proof.
  intros i u cu db row db' Hupd. unfold Habits.update_habit in Hupd.
  destruct (query_get Habit.id db i) as [old|] eqn:Hq; [|done].
  destruct (_ && _) eqn:Hperm; [done|].
  rewrite habit_apply_update in Hupd.
  destruct (Habit.flush _) as [r|e] eqn:Hf; [|done].
  apply habit_flush_Return in Hf as ->. injection Hupd as <- <-.
  unfold Habits.get_habit.
  rewrite (query_get_patched Habit.id _ old) by done.
  change (Habit.user_id (patched_habit now u old)) with (Habit.user_id old).
  by rewrite Hperm.
Qed.

Lemma update_note_readable :
  updated_is_readable Notes.update_note Notes.get_note.
Proof.
  intros i u cu db row db' Hupd. unfold Notes.update_note in Hupd.
  destruct (query_get Note.id db i) as [old|] eqn:Hq; [|done].
  destruct (_ && _) eqn:Hperm; [done|].
  rewrite note_setattr_items in Hupd.
  destruct (Note.flush _) as [r|e] eqn:Hf; [|done].
  apply note_flush_Return in Hf as ->. injection Hupd as <- <-.
  unfold Notes.get_note.
  rewrite (query_get_patched Note.id _ old) by done.
  change (Note.user_id (patched_note u old)) with (Note.user_id old).
  by rewrite Hperm.
Qed.

Lemma update_daily_goal_readable :
  updated_is_readable DailyGoals.update_daily_goal DailyGoals.get_daily_goal.
Proof.
  intros i u cu db row db' Hupd. unfold DailyGoals.update_daily_goal in Hupd.
  destruct (query_get DailyGoal.id db i) as [old|] eqn:Hq; [|done].
  destruct (_ && _) eqn:Hperm; [done|].
  rewrite daily_goal_setattr_items in Hupd.
  destruct (DailyGoal.flush _) as [r|e] eqn:Hf; [|done].
  apply daily_goal_flush_Return in Hf as ->. injection Hupd as <- <-.
  unfold DailyGoals.get_daily_goal.
  rewrite (query_get_patched DailyGoal.id _ old) by done.
  change (DailyGoal.user_id (patched_daily_goal u old))
    with (DailyGoal.user_id old).
  by rewrite Hperm.
Qed.

(** X7. For tasks, habits, notes and daily goals: after an update that
    succeeds, the same actor's get of the id returns the row the update
    returned. *)
Theorem updated_row_is_readable :
  updated_is_readable Tasks.update_task Tasks.get_single_task
  ∧ (∀ now, updated_is_readable (λ i u, Habits.update_habit i u now)
              Habits.get_habit)
  ∧ updated_is_readable Notes.update_note Notes.get_note
  ∧ updated_is_readable DailyGoals.update_daily_goal DailyGoals.get_daily_goal.
Proof.
  split; [exact update_task_readable|].
  split; [exact update_habit_readable|].
  split; [exact update_note_readable|exact update_daily_goal_readable].
Qed.

Lemma applies_exactly_keeps_keys {Row U} (row_id owner created_at : Row → Z)
    (patch : U → Row → Row)
    (update : Z → U → UserModel → list Row → Result Row * list Row) :
  (∀ u old, row_id (patch u old) = row_id old
            ∧ owner (patch u old) = owner old
            ∧ created_at (patch u old) = created_at old) →
  applies_exactly row_id patch update →
  keeps_keys row_id owner created_at update.
Proof.
  intros Hpatch Happ i u cu db Hnodup. specialize (Happ i u cu db).
  destruct (update i u cu db) as [[row|e] db']; cbn [snd]; [|by subst].
  destruct Happ as (old & Hq & -> & ->).
  destruct (Hpatch u old) as (Hid & Howner & Hcreated).
  pose proof (query_get_elem_of _ _ _ _ Hq) as [_ Hi].
  assert (Hq' : query_get row_id db (row_id (patch u old)) = Some old)
    by (by rewrite Hid, Hi).
  by rewrite !(update_commit_map row_id _ (patch u old) old).
Qed.

(** X8. Ownership is immutable: on a table with distinct keys, an update
    of a task, habit, note or daily goal, whatever its outcome, leaves the
    keys, the owners and the creation times of all rows as they were. *)
Theorem update_keeps_owner_and_key :
  keeps_keys Task.id Task.user_id Task.created_at Tasks.update_task
  ∧ (∀ now, keeps_keys Habit.id Habit.user_id Habit.created_at
              (λ i u, Habits.update_habit i u now))
  ∧ keeps_keys Note.id Note.user_id Note.created_at Notes.update_note
  ∧ keeps_keys DailyGoal.id DailyGoal.user_id DailyGoal.created_at
      DailyGoals.update_daily_goal.
Proof.
  split; [|split; [|split]]; intros.
  - by apply (applies_exactly_keeps_keys _ _ _ patched_task);
      [|apply update_task_applies].
  - by apply (applies_exactly_keeps_keys _ _ _ (patched_habit now));
      [|apply update_habit_applies].
  - by apply (applies_exactly_keeps_keys _ _ _ patched_note);
      [|apply update_note_applies].
  - by apply (applies_exactly_keeps_keys _ _ _ patched_daily_goal);
      [|apply update_daily_goal_applies].
Qed.

End Updated.

Lemma created_row_is_readable_witness :
  ∃ row,
    Tasks.create_task (H := sample_collaborators) t1 50 1 alice_row []
    = (Return row, [] ++ [row])
    ∧ Tasks.get_single_task 1 alice_row ([] ++ [row]) = Return row.
Proof.
  exact (proj1 (created_row_is_readable (H := sample_collaborators))
           t1 50 1 alice_row [] eq_refl).
Defined.

Lemma updated_row_is_readable_witness :
  Tasks.get_single_task 1 alice_row [alice_task_renamed] = Return alice_task_renamed.
Proof.
  apply (proj1 (updated_row_is_readable (H := sample_collaborators))
           1 rename_t2 alice_row [alice_task]).
  vm_compute. reflexivity.
Defined.

Lemma update_keeps_owner_and_key_witness :
  map Task.user_id
    (Tasks.update_task (H := sample_collaborators) 1 rename_t2 root [alice_task]).2
  = [1].
Proof.
  apply (proj1 (update_keeps_owner_and_key (H := sample_collaborators))
           1 rename_t2 root [alice_task]).
  apply NoDup_singleton.
Defined.

(** * Lists: what they hold *)

Lemma limit_offset_subseteq {Row} limit offset (rows : list Row) x :
  x ∈ limit_offset limit offset rows → x ∈ rows.
Proof.
  unfold limit_offset. intros Hin.
  apply list_elem_of_lookup in Hin as [k Hk].
  apply lookup_take_Some in Hk as [Hk _]. rewrite lookup_drop in Hk.
  by eapply list_elem_of_lookup_2.
Qed.

(** X9. The owner-scoped lists of tasks, habits, notes and daily goals
    return rows of the current user only, whatever the filters and whatever
    the role of the user: an ADMIN gets no other user's rows from them. *)
Theorem lists_hold_own_rows_only q current_user :
  (∀ db rows, list_tasks q current_user db = Return rows →
              Forall (λ t, Task.user_id t = User.id current_user) rows)
  ∧ (∀ db rows, list_habits q current_user db = Return rows →
                Forall (λ h, Habit.user_id h = User.id current_user) rows)
  ∧ (∀ db rows, list_notes q current_user db = Return rows →
                Forall (λ n, Note.user_id n = User.id current_user) rows)
  ∧ (∀ db rows, list_daily_goals q current_user db = Return rows →
                Forall (λ g, DailyGoal.user_id g = User.id current_user) rows).
Proof.
  split; [|split; [|split]]; intros db rows Hlist; apply Forall_forall; intros x Hx.
  - rewrite get_tasks_listing in Hlist. injection Hlist as <-.
    apply listing_elem_of in Hx as [_ Hkeep]. unfold keep_task in Hkeep.
    apply andb_prop in Hkeep as [Hkeep _]. apply andb_prop in Hkeep as [Hown _].
    by apply Z.eqb_eq.
  - rewrite get_my_habits_listing in Hlist. injection Hlist as <-.
    apply listing_elem_of in Hx as [_ Hkeep]. unfold keep_habit in Hkeep.
    apply andb_prop in Hkeep as [Hown _]. by apply Z.eqb_eq.
  - rewrite get_user_notes_listing in Hlist. injection Hlist as <-.
    apply listing_elem_of in Hx as [_ Hkeep]. unfold keep_note in Hkeep.
    apply andb_prop in Hkeep as [Hown _]. by apply Z.eqb_eq.
  - rewrite get_daily_goals_listing in Hlist.
    destruct (_ && _); [|done]. injection Hlist as <-.
    apply limit_offset_subseteq, listing_elem_of in Hx as [_ Hkeep].
    unfold keep_daily_goal in Hkeep.
    apply andb_prop in Hkeep as [Hkeep _]. apply andb_prop in Hkeep as [Hkeep _].
    apply andb_prop in Hkeep as [Hown _]. by apply Z.eqb_eq.
Qed.

Lemma lists_hold_own_rows_only_witness :
  Forall (λ t, Task.user_id t = User.id root) [].
Proof.
  apply (proj1 (lists_hold_own_rows_only first_page_of_one root) [alice_task]).
  vm_compute. reflexivity.
Defined.

Lemma limit_offset_pages {Row} l l' o (rows : list Row) :
  0 ≤ l → 0 ≤ l' → 0 ≤ o →
  limit_offset l o rows ++ limit_offset l' (o + l) rows
  = limit_offset (l + l') o rows.
Proof.
  intros Hl Hl' Ho. unfold limit_offset.
  rewrite !Z2Nat.inj_add by done.
  rewrite <- drop_drop. apply take_take_drop.
Qed.

Lemma created_at_determines {Row} (created_at : Row → Z) (db : list Row) x y :
  NoDup (map created_at db) →
  x ∈ db → y ∈ db → created_at x = created_at y → x = y.
Proof.
  induction db as [|a db IH]; cbn [map]; [by intros _ ?%elem_of_nil|].
  intros [Ha Hdb]%NoDup_cons [->|Hx]%elem_of_cons [->|Hy]%elem_of_cons Heq.
  - done.
  - destruct Ha. rewrite Heq. apply list_elem_of_In, in_map.
    by apply list_elem_of_In.
  - destruct Ha. rewrite <- Heq. apply list_elem_of_In, in_map.
    by apply list_elem_of_In.
  - by apply IH.
Qed.

Lemma newest_first_order_unique {Row} (created_at : Row → Z) keep db ordered :
  NoDup (map created_at db) →
  newest_first_order created_at (List.filter keep db) ordered →
  ordered = listing created_at keep db.
Proof.
  intros Hdistinct [Hperm Hsorted].
  assert (Hin : ∀ x, x ∈ ordered → x ∈ db).
  { intros x Hx. rewrite Hperm in Hx.
    by apply list_elem_of_In, filter_In in Hx as [?%list_elem_of_In _]. }
  apply (StronglySorted_unique_strong (newer_first created_at)).
  - intros x1 x2 Hx1 Hx2 H12 H21. unfold newer_first in H12, H21.
    apply (created_at_determines created_at db); [done|by apply Hin| |lia].
    by apply (listing_elem_of created_at keep db x2).
  - done.
  - apply listing_sorted.
  - rewrite Hperm. unfold listing, order_by_desc.
    by rewrite merge_sort_Permutation.
Qed.

(** X10. On a table whose creation times differ from row to row, the
    pages of the daily-goal list join up: the order is then the only
    newest-first order of the matching rows there is, so every page is cut
    from it; and with limits from 1 on that sum to at most 100, the page
    of [l] rows at offset [o] followed by the page of [l'] rows at offset
    [o + l] is the page of [l + l'] rows at offset [o]; no row is skipped
    and none is repeated. *)
Theorem daily_goal_pages_join current_user goal_date completed search l l' o db :
  1 ≤ l → 1 ≤ l' → l + l' ≤ 100 → 0 ≤ o →
  NoDup (map DailyGoal.created_at db) →
  (∀ ordered,
     newest_first_order DailyGoal.created_at
       (List.filter
          (keep_daily_goal current_user
             {| q_goal_date := goal_date; q_completed := completed;
                q_search := search; q_limit := l; q_offset := o |}) db)
       ordered →
     DailyGoals.get_daily_goals current_user goal_date completed search l o db
     = Return (limit_offset l o ordered)
     ∧ DailyGoals.get_daily_goals current_user goal_date completed search
         l' (o + l) db = Return (limit_offset l' (o + l) ordered)
     ∧ DailyGoals.get_daily_goals current_user goal_date completed search
         (l + l') o db = Return (limit_offset (l + l') o ordered))
  ∧ ∃ page page',
      DailyGoals.get_daily_goals current_user goal_date completed search l o db
      = Return page
      ∧ DailyGoals.get_daily_goals current_user goal_date completed search
          l' (o + l) db = Return page'
      ∧ DailyGoals.get_daily_goals current_user goal_date completed search
          (l + l') o db = Return (page ++ page').
Proof.
  intros Hl Hl' Hsum Ho Hdistinct.
  assert (Hv : ∀ a b, 1 ≤ a → a ≤ 100 → 0 ≤ b →
                      (1 <=? a) && (a <=? 100) && (0 <=? b) = true).
  { intros a b ???. repeat (apply andb_true_intro; split); by apply Z.leb_le. }
  split.
  - intros ordered Hordered.
    apply newest_first_order_unique in Hordered as ->; [|done].
    pose proof (λ limit offset,
      get_daily_goals_listing
        {| q_goal_date := goal_date; q_completed := completed;
           q_search := search; q_limit := limit; q_offset := offset |}
        current_user db) as Hlist.
    unfold list_daily_goals in Hlist.
    cbn [q_goal_date q_completed q_search q_limit q_offset] in Hlist.
    rewrite !Hlist, !Hv by lia. done.
  - unfold DailyGoals.get_daily_goals.
    rewrite !Hv by lia. do 2 eexists. split; [reflexivity|]. split; [reflexivity|].
    f_equal. unfold DailyGoals.select_daily_goals.
    symmetry. apply limit_offset_pages; lia.
Qed.

Lemma daily_goal_pages_join_witness :
  ∃ page page',
    DailyGoals.get_daily_goals carol None None None 1 0
      [carol_goal 1 10 false; carol_goal 2 20 true; carol_goal 3 30 false]
    = Return page
    ∧ DailyGoals.get_daily_goals carol None None None 2 (0 + 1)
        [carol_goal 1 10 false; carol_goal 2 20 true; carol_goal 3 30 false]
      = Return page'
    ∧ DailyGoals.get_daily_goals carol None None None (1 + 2) 0
        [carol_goal 1 10 false; carol_goal 2 20 true; carol_goal 3 30 false]
      = Return (page ++ page').
Proof.
  apply (daily_goal_pages_join carol None None None 1 2 0); [lia..|].
  cbn. apply NoDup_ListNoDup. repeat constructor; cbn; intuition lia.
Defined.

(** * Search: wildcards and case *)

Lemma only_percent_lower p : only_percent p = true → lower p = p.
Proof.
  induction p as [|c p IH]; [done|]. cbn.
  intros [->%Ascii.eqb_eq Hp]%andb_prop. by rewrite IH.
Qed.

Lemma like_match_only_percent p t :
  only_percent p = true → p ≠ "" →
  Sql.like_match (Sql.like_pattern p) t = true.
Proof.
  induction p as [|c p IH]; [done|]. cbn [only_percent].
  intros [->%Ascii.eqb_eq Hp]%andb_prop _.
  change (Sql.like_pattern (String "%" p)) with (Sql.AnySeq :: Sql.like_pattern p).
  destruct p as [|c' p'].
  - apply like_match_any_seq.
  - rewrite like_match_any_seq_unfold, IH; done.
Qed.

Lemma ilike_only_percent term text :
  only_percent term = true →
  Sql.ilike (VStr text) ("%" +:+ term +:+ "%") = true.
Proof.
  intros Hterm. unfold Sql.ilike.
  assert (Hp : only_percent ("%" +:+ term +:+ "%") = true).
  { change ("%" +:+ term +:+ "%") with (String "%" (term +:+ "%")).
    cbn [only_percent]. change (Ascii.eqb "%" "%") with true. cbn [andb].
    clear -Hterm. induction term as [|c term IH]; [done|].
    cbn [only_percent] in Hterm. apply andb_prop in Hterm as [Hc Hterm].
    change (String c term +:+ "%") with (String c (term +:+ "%")).
    cbn [only_percent]. by rewrite Hc, IH. }
  rewrite (only_percent_lower _ Hp). by apply like_match_only_percent.
Qed.

Lemma filter_all_true {A} (f : A → bool) l :
  Forall (λ x, f x = true) l → List.filter f l = l.
Proof. induction 1 as [|x l Hx _ IH]; [done|]. cbn. by rewrite Hx, IH. Qed.

Lemma Forall_list_filter {A} (P : A → Prop) (f : A → bool) l :
  Forall P l → Forall P (List.filter f l).
Proof.
  induction 1 as [|x l Hx _ IH]; [constructor|]. cbn.
  destruct (f x); [by constructor|done].
Qed.

(** X11. The search term is not escaped: on a table whose titles are
    strings, a term made of [%] only filters nothing, so the search
    returns what the list without a search returns.  This holds for tasks,
    notes and daily goals. *)
Theorem percent_search_matches_all term current_user :
  only_percent term = true →
  (∀ completed db,
     Forall (λ t, is_text (Task.title t)) db →
     Tasks.get_tasks current_user completed (Some term) db
     = Tasks.get_tasks current_user completed None db)
  ∧ (∀ db,
       Forall (λ n, is_text (Note.title n)) db →
       Notes.get_user_notes current_user (Some term) db
       = Notes.get_user_notes current_user None db)
  ∧ (∀ goal_date completed limit offset db,
       Forall (λ g, is_text (DailyGoal.title g)) db →
       DailyGoals.get_daily_goals current_user goal_date completed (Some term)
         limit offset db
       = DailyGoals.get_daily_goals current_user goal_date completed None
           limit offset db).
Proof.
  intros Hterm. split; [|split].
  - intros completed db Hdb. unfold Tasks.get_tasks.
    destruct (truthy (VStr term)); [|done]. do 2 f_equal.
    apply filter_all_true.
    destruct completed; repeat apply Forall_list_filter;
      (eapply Forall_impl; [exact Hdb|]); intros t [s ->]; cbn beta;
      by rewrite ilike_only_percent.
  - intros db Hdb. unfold Notes.get_user_notes.
    destruct (truthy (VStr term)); [|done]. do 2 f_equal.
    apply filter_all_true. apply Forall_list_filter.
    eapply Forall_impl; [exact Hdb|]. intros n [s ->]. cbn beta zeta.
    by rewrite ilike_only_percent.
  - intros goal_date completed limit offset db Hdb.
    unfold DailyGoals.get_daily_goals. destruct (_ && _); [|done].
    unfold DailyGoals.select_daily_goals.
    destruct (truthy (VStr term)); [|done]. do 3 f_equal.
    apply filter_all_true.
    destruct goal_date, completed; repeat apply Forall_list_filter;
      (eapply Forall_impl; [exact Hdb|]); intros g [s ->]; cbn beta zeta;
      by rewrite ilike_only_percent.
Qed.

Lemma percent_search_matches_all_witness :
  Tasks.get_tasks carol None (Some "%") [carol_task 1 100; alice_task]
  = Tasks.get_tasks carol None None [carol_task 1 100; alice_task].
Proof.
  apply (proj1 (percent_search_matches_all "%" carol eq_refl)).
  repeat constructor; by eexists.
Defined.

Lemma truthy_upper s : truthy (VStr (upper s)) = truthy (VStr s).
Proof. by destruct s. Qed.

Lemma search_pattern_upper s :
  lower ("%" +:+ upper s +:+ "%") = lower ("%" +:+ s +:+ "%").
Proof.
  change ("%" +:+ upper s +:+ "%") with (String "%" (upper s +:+ "%")).
  change ("%" +:+ s +:+ "%") with (String "%" (s +:+ "%")).
  cbn [lower]. by rewrite !lower_append, lower_upper.
Qed.

Lemma ilike_upper_term column s :
  Sql.ilike column ("%" +:+ upper s +:+ "%") = Sql.ilike column ("%" +:+ s +:+ "%").
Proof. unfold Sql.ilike. by rewrite search_pattern_upper. Qed.

(** X12. For texts of ASCII characters the search ignores case on both
    sides: an ASCII text matches a pattern exactly when its upper-cased
    form does, and for an ASCII term the task, note and daily-goal lists
    return the same rows as for its upper-cased form. *)
Theorem search_ignores_case s current_user :
  is_ascii s = true →
  (∀ text pattern,
     is_ascii text = true →
     Sql.ilike (VStr (upper text)) pattern = Sql.ilike (VStr text) pattern)
  ∧ (∀ completed db,
       Tasks.get_tasks current_user completed (Some (upper s)) db
       = Tasks.get_tasks current_user completed (Some s) db)
  ∧ (∀ db,
       Notes.get_user_notes current_user (Some (upper s)) db
       = Notes.get_user_notes current_user (Some s) db)
  ∧ (∀ goal_date completed limit offset db,
       DailyGoals.get_daily_goals current_user goal_date completed
         (Some (upper s)) limit offset db
       = DailyGoals.get_daily_goals current_user goal_date completed
           (Some s) limit offset db).
Proof.
  intros _. split; [|split; [|split]].
  - intros text pattern _. unfold Sql.ilike. by rewrite lower_upper.
  - intros completed db. unfold Tasks.get_tasks. rewrite truthy_upper.
    destruct (truthy (VStr s)); [|done]. do 2 f_equal.
    apply filter_ext_bool. intros t. by rewrite !ilike_upper_term.
  - intros db. unfold Notes.get_user_notes. rewrite truthy_upper.
    destruct (truthy (VStr s)); [|done]. do 2 f_equal. cbn zeta.
    apply filter_ext_bool. intros n. by rewrite !ilike_upper_term.
  - intros goal_date completed limit offset db.
    unfold DailyGoals.get_daily_goals. destruct (_ && _); [|done].
    unfold DailyGoals.select_daily_goals. rewrite truthy_upper.
    destruct (truthy (VStr s)); [|done]. do 3 f_equal. cbn zeta.
    apply filter_ext_bool. intros g. by rewrite !ilike_upper_term.
Qed.

Lemma search_ignores_case_witness :
  Tasks.get_tasks carol None (Some (upper "report"))
    [carol_task 1 100; carol_task 2 200]
  = Tasks.get_tasks carol None (Some "report")
      [carol_task 1 100; carol_task 2 200].
Proof.
  apply (proj1 (proj2 (search_ignores_case "report" carol eq_refl))).
Defined.

(** * The admin lists, the per-user list and the statistics *)

Lemma role_ne_admin_iff (current_user : UserModel) :
  User.role_ne_admin current_user = false
  ↔ User.role current_user = Some UserRole.ADMIN.
Proof.
  unfold User.role_ne_admin. rewrite negb_false_iff. apply bool_decide_eq_true.
Qed.

Lemma order_by_desc_sorted {Row} (created_at : Row → Z) rows :
  StronglySorted (newer_first created_at) (order_by_desc created_at rows)
  ∧ order_by_desc created_at rows ≡ₚ rows.
Proof.
  unfold order_by_desc. split.
  - apply StronglySorted_merge_sort; apply _.
  - apply merge_sort_Permutation.
Qed.

(** X13. The admin lists are closed to everyone else: an actor whose role
    is not ADMIN gets 403 from each of them (for the daily goals, when the
    limit and offset are valid), whatever the tables hold; an ADMIN gets
    all tasks, newest first, and all habits when no filter is given; and
    the habit list treats the user id 0 as no filter. *)
Theorem admin_lists_are_admin_only current_user :
  (User.role current_user ≠ Some UserRole.ADMIN →
   (∀ db, status_of HTTP_200_OK (AdminLists.get_all_tasks_admin current_user db)
          = HTTP_403_FORBIDDEN)
   ∧ (∀ user_id completed db,
        status_of HTTP_200_OK
          (AdminLists.get_all_habits_admin user_id completed current_user db)
        = HTTP_403_FORBIDDEN)
   ∧ (∀ show_completed limit offset db,
        1 ≤ limit ≤ 100 → 0 ≤ offset →
        status_of HTTP_200_OK
          (AdminLists.get_all_daily_goals_admin current_user show_completed
             limit offset db)
        = HTTP_403_FORBIDDEN))
  ∧ (User.role current_user = Some UserRole.ADMIN →
     (∀ db, ∃ rows,
        AdminLists.get_all_tasks_admin current_user db = Return rows
        ∧ rows ≡ₚ db ∧ StronglySorted (newer_first Task.created_at) rows)
     ∧ (∀ db, ∃ rows,
          AdminLists.get_all_habits_admin None None current_user db = Return rows
          ∧ rows ≡ₚ db ∧ StronglySorted (newer_first Habit.created_at) rows)
     ∧ (∀ completed db,
          AdminLists.get_all_habits_admin (Some 0) completed current_user db
          = AdminLists.get_all_habits_admin None completed current_user db)).
Proof.
  split.
  - intros Hrole.
    assert (Hne : User.role_ne_admin current_user = true).
    { destruct (User.role_ne_admin current_user) eqn:E; [done|].
      by apply role_ne_admin_iff in E. }
    split; [|split].
    + intros db. unfold AdminLists.get_all_tasks_admin. by rewrite Hne.
    + intros user_id completed db. unfold AdminLists.get_all_habits_admin.
      by rewrite Hne.
    + intros show_completed limit offset db [Hl1 Hl2] Ho.
      unfold AdminLists.get_all_daily_goals_admin. rewrite Hne.
      apply Z.leb_le in Hl1, Hl2, Ho. by rewrite Hl1, Hl2, Ho.
  - intros Hrole. apply role_ne_admin_iff in Hrole.
    split; [|split].
    + intros db. unfold AdminLists.get_all_tasks_admin. rewrite Hrole.
      eexists. split; [reflexivity|].
      destruct (order_by_desc_sorted Task.created_at db). by split.
    + intros db. unfold AdminLists.get_all_habits_admin. rewrite Hrole.
      eexists. split; [reflexivity|].
      destruct (order_by_desc_sorted Habit.created_at db). by split.
    + intros completed db. unfold AdminLists.get_all_habits_admin.
      by rewrite Hrole.
Qed.

Lemma admin_lists_are_admin_only_witness :
  status_of HTTP_200_OK (AdminLists.get_all_tasks_admin carol [alice_task])
  = HTTP_403_FORBIDDEN.
Proof.
  apply (proj1 (admin_lists_are_admin_only carol)). discriminate.
Defined.

Lemma filter_andb_length {A} (f g : A → bool) l :
  (length (List.filter (λ x, f x && g x) l) ≤ length (List.filter f l))%nat.
Proof.
  induction l as [|x l IH]; [done|]. cbn.
  destruct (f x); cbn; [destruct (g x); cbn; lia|done].
Qed.

Lemma filter_app_none {A} (f : A → bool) l others :
  Forall (λ x, f x = false) others →
  List.filter f (l ++ others) = List.filter f l.
Proof.
  intros Hothers. rewrite List.filter_app.
  assert (List.filter f others = []) as ->; [|by rewrite app_nil_r].
  induction Hothers as [|x others Hx _ IH]; [done|]. cbn. by rewrite Hx.
Qed.

(** X14. The habit statistics add up: the total is the number of the
    current user's habits, the completed count lies between 0 and the
    total, the incomplete count is the rest, so the two counts sum to the
    total; and the rows of other users do not change the statistics. *)
Theorem habit_stats_add_up current_user db :
  ∃ stats,
    Stats.get_habit_stats current_user db = Return stats
    ∧ Stats.total_habits stats
      = Z.of_nat (length (List.filter
                            (λ h, Habit.user_id h =? User.id current_user) db))
    ∧ 0 ≤ Stats.completed_habits stats ≤ Stats.total_habits stats
    ∧ 0 ≤ Stats.incomplete_habits stats
    ∧ Stats.completed_habits stats + Stats.incomplete_habits stats
      = Stats.total_habits stats
    ∧ ∀ others,
        Forall (λ h, Habit.user_id h ≠ User.id current_user) others →
        Stats.get_habit_stats current_user (db ++ others) = Return stats.
Proof.
  eexists. split; [reflexivity|]. cbn [Stats.total_habits Stats.completed_habits
    Stats.incomplete_habits]. unfold Stats.count.
  pose proof (filter_andb_length
                (λ h, Habit.user_id h =? User.id current_user)
                (λ h, bool_decide (Habit.is_completed h = VBool true)) db)
    as Hle.
  cbn beta in Hle. split; [done|]. split; [lia|]. split; [lia|]. split; [lia|].
  intros others Hothers. unfold Stats.get_habit_stats.
  rewrite !(filter_app_none _ db others); [done| |].
  - eapply Forall_impl; [exact Hothers|]. intros h Hh. cbn beta.
    apply andb_false_intro1. by apply Z.eqb_neq.
  - eapply Forall_impl; [exact Hothers|]. intros h Hh. by apply Z.eqb_neq.
Qed.

(** X15. The per-user daily-goal list: an ADMIN, or the user themselves,
    gets for a user exactly what that user's own unfiltered list returns
    with the same limit and offset; any other actor gets 403 when the limit
    and offset are valid. *)
Theorem user_daily_goals_as_own_list (current_user u : UserModel) limit offset db :
  (User.role current_user = Some UserRole.ADMIN
   ∨ User.id current_user = User.id u →
   UserDailyGoals.get_user_daily_goals (User.id u) current_user limit offset db
   = DailyGoals.get_daily_goals u None None None limit offset db)
  ∧ (User.role current_user ≠ Some UserRole.ADMIN →
     User.id current_user ≠ User.id u →
     1 ≤ limit ≤ 100 → 0 ≤ offset →
     UserDailyGoals.get_user_daily_goals (User.id u) current_user limit offset db
     = Raise (HTTPException HTTP_403_FORBIDDEN
                "Not authorized to view these daily goals")).
Proof.
  unfold UserDailyGoals.get_user_daily_goals, DailyGoals.get_daily_goals. split.
  - intros Hallowed. destruct (_ && _); [|done].
    assert (negb (User.id current_user =? User.id u)
            && User.role_ne_admin current_user = false) as ->.
    { destruct Hallowed as [Hadmin| ->].
      - apply role_ne_admin_iff in Hadmin as ->. apply andb_false_r.
      - by rewrite Z.eqb_refl. }
    reflexivity.
  - intros Hrole Hid [Hl1 Hl2] Ho.
    apply Z.leb_le in Hl1, Hl2, Ho. rewrite Hl1, Hl2, Ho. cbn [andb].
    apply Z.eqb_neq in Hid as ->.
    destruct (User.role_ne_admin current_user) eqn:E; [done|].
    by apply role_ne_admin_iff in E.
Qed.

Lemma user_daily_goals_as_own_list_witness :
  UserDailyGoals.get_user_daily_goals (User.id carol) root 20 0
    [carol_goal 1 10 false; carol_goal 2 20 true]
  = DailyGoals.get_daily_goals carol None None None 20 0
      [carol_goal 1 10 false; carol_goal 2 20 true].
Proof.
  apply (proj1 (user_daily_goals_as_own_list root carol 20 0
                  [carol_goal 1 10 false; carol_goal 2 20 true])).
  left. reflexivity.
Defined.

(** * Null on a required column *)

Section RequiredColumns.
Context `{Collaborators}.

Ltac refused :=
  cbn [fst snd status_of]; split; [reflexivity|];
  unfold HTTP_404_NOT_FOUND, HTTP_403_FORBIDDEN, HTTP_500_INTERNAL_SERVER_ERROR;
  auto.

(** X16. The update schemas accept null for every field, the tables do
    not: an update that sets the title of a task, habit, note or daily
    goal, the description of a task or the date of a daily goal to null
    never succeeds (it is answered 404, 403 or 500) and leaves the table as
    it was. *)
Theorem null_on_required_column_is_refused :
  (∀ i u current_user db,
     Task.update_title u = SetTo None ∨ Task.update_description u = SetTo None →
     (Tasks.update_task i u current_user db).2 = db
     ∧ (status_of HTTP_200_OK (Tasks.update_task i u current_user db).1 = 404
        ∨ status_of HTTP_200_OK (Tasks.update_task i u current_user db).1 = 403
        ∨ status_of HTTP_200_OK (Tasks.update_task i u current_user db).1 = 500))
  ∧ (∀ i u now current_user db,
       Habit.update_title u = SetTo None →
       (Habits.update_habit i u now current_user db).2 = db
       ∧ (status_of HTTP_200_OK (Habits.update_habit i u now current_user db).1 = 404
          ∨ status_of HTTP_200_OK (Habits.update_habit i u now current_user db).1 = 403
          ∨ status_of HTTP_200_OK (Habits.update_habit i u now current_user db).1 = 500))
  ∧ (∀ i u current_user db,
       Note.update_title u = SetTo None →
       (Notes.update_note i u current_user db).2 = db
       ∧ (status_of HTTP_200_OK (Notes.update_note i u current_user db).1 = 404
          ∨ status_of HTTP_200_OK (Notes.update_note i u current_user db).1 = 403
          ∨ status_of HTTP_200_OK (Notes.update_note i u current_user db).1 = 500))
  ∧ (∀ i u current_user db,
       DailyGoal.update_title u = SetTo None
       ∨ DailyGoal.update_goal_date u = SetTo None →
       (DailyGoals.update_daily_goal i u current_user db).2 = db
       ∧ (status_of HTTP_200_OK (DailyGoals.update_daily_goal i u current_user db).1
          = 404
          ∨ status_of HTTP_200_OK (DailyGoals.update_daily_goal i u current_user db).1
            = 403
          ∨ status_of HTTP_200_OK (DailyGoals.update_daily_goal i u current_user db).1
            = 500)).
Proof.
  split; [|split; [|split]].
  - intros i u cu db Hnull. unfold Tasks.update_task.
    destruct (query_get Task.id db i) as [old|]; [|refused].
    destruct (_ && _); [refused|]. rewrite task_setattr_items.
    unfold Task.flush, patched_task. cbn [Task.title Task.description].
    destruct Hnull as [-> | ->]; cbn [applied assigned];
      repeat case_decide; try done; refused.
  - intros i u now cu db Hnull. unfold Habits.update_habit.
    destruct (query_get Habit.id db i) as [old|]; [|refused].
    destruct (_ && _); [refused|]. rewrite habit_apply_update.
    unfold Habit.flush, patched_habit. cbn [Habit.title].
    rewrite Hnull. cbn [applied assigned]. repeat case_decide; try done; refused.
  - intros i u cu db Hnull. unfold Notes.update_note.
    destruct (query_get Note.id db i) as [old|]; [|refused].
    destruct (_ && _); [refused|]. rewrite note_setattr_items.
    unfold Note.flush, patched_note. cbn [Note.title].
    rewrite Hnull. cbn [applied assigned]. repeat case_decide; try done; refused.
  - intros i u cu db Hnull. unfold DailyGoals.update_daily_goal.
    destruct (query_get DailyGoal.id db i) as [old|]; [|refused].
    destruct (_ && _); [refused|]. rewrite daily_goal_setattr_items.
    unfold DailyGoal.flush, patched_daily_goal.
    cbn [DailyGoal.title DailyGoal.goal_date].
    destruct Hnull as [-> | ->]; cbn [applied assigned];
      repeat case_decide; try done; refused.
Qed.

End RequiredColumns.

Lemma null_on_required_column_is_refused_witness :
  (Tasks.update_task (H := sample_collaborators) 1
     {| Task.update_title := SetTo None;
        Task.update_description := Unset;
        Task.update_due_date := Unset;
        Task.update_is_completed := Unset |} alice_row [alice_task]).2
  = [alice_task].
Proof.
  apply (proj1 (null_on_required_column_is_refused (H := sample_collaborators))).
  left. reflexivity.
Defined.

(** * The role-column scripts *)

Lemma map_with_role_id (rows : list UserModel) :
  Forall (λ row, User.role row = Some "CUSTOMER") rows →
  map (λ row, match User.role row with
              | None => Migration.with_role (Some "CUSTOMER") row
              | Some _ => row
              end) rows = rows.
Proof.
  induction 1 as [|row rows Hrow _ IH]; [done|]. cbn. by rewrite Hrow, IH.
Qed.

(** X17. [fix_role_column.py] leaves a table that has the column as it is,
    so running it again changes nothing; on a table without the column it
    adds [VARCHAR(50) NOT NULL DEFAULT 'CUSTOMER'], gives every row the
    role CUSTOMER and keeps the other attributes and the order of the
    rows; without a [users] table it raises and changes nothing. *)
Theorem fix_role_column_adds_customer_once (db : option Migration.UsersTable) :
  (Migration.fix_role_column (Migration.fix_role_column db).2
   = (match db with
      | None => Raise (ProgrammingError "relation users does not exist")
      | Some _ => Return ()
      end, (Migration.fix_role_column db).2))
  ∧ (∀ t c, db = Some t → Migration.role_column t = Some c →
            Migration.fix_role_column db = (Return (), db))
  ∧ (∀ t, db = Some t → Migration.role_column t = None →
          ∃ t', Migration.fix_role_column db = (Return (), Some t')
                ∧ Migration.role_column t'
                  = Some {| Migration.varchar := 50;
                            Migration.default_value := "CUSTOMER";
                            Migration.not_null := true |}
                ∧ Migration.rows t'
                  = map (Migration.with_role (Some "CUSTOMER")) (Migration.rows t)
                ∧ Forall (λ row, User.is_customer row = true) (Migration.rows t'))
  ∧ (db = None →
     Migration.fix_role_column db
     = (Raise (ProgrammingError "relation users does not exist"), None)).
Proof.
  assert (Hrows : ∀ rows : list UserModel,
             Forall (λ row, User.role row = Some "CUSTOMER")
               (map (Migration.with_role (Some "CUSTOMER")) rows)).
  { intros rows. apply Forall_forall. intros row Hin.
    apply list_elem_of_In, in_map_iff in Hin as (old & <- & _). done. }
  split; [|split; [|split]].
  - destruct db as [[[c|] rows]|]; [done| |done].
    reflexivity.
  - intros t c -> Hc. unfold Migration.fix_role_column. by rewrite Hc.
  - intros [col rows] -> Hc. cbn in Hc. subst col.
    unfold Migration.fix_role_column, Migration.add_column,
      Migration.update_null_roles. cbn.
    rewrite (map_with_role_id _ (Hrows rows)).
    eexists. split; [reflexivity|]. cbn. split; [done|]. split; [done|].
    eapply Forall_impl; [apply Hrows|]. intros row Hrow. cbn beta in Hrow.
    unfold User.is_customer. by rewrite Hrow.
  - by intros ->.
Qed.

Lemma lowercase_customer_rows (rows : list UserModel) :
  Forall (λ row, User.role row = Some "customer"
                 ∧ User.is_customer row = false
                 ∧ User.is_admin row = false
                 ∧ User.role_ne_admin row = true)
    (map (Migration.with_role (Some "customer")) rows).
Proof.
  apply Forall_forall. intros row Hin.
  apply list_elem_of_In, in_map_iff in Hin as (old & <- & _). done.
Qed.

(** X18. [add_role_column.py] at the root of the sources, run against a
    PostgreSQL URI on a [users] table without the column, gives every row
    the lower-case role ["customer"], which neither [is_customer] nor
    [is_admin] of the user model recognises; a second run changes
    nothing. *)
Theorem add_role_column_writes_lowercase db_URI duplicate_text
    (t : Migration.UsersTable) :
  contains "postgresql" (lower db_URI) = true →
  Migration.role_column t = None →
  ∃ t',
    Migration.add_role_column db_URI duplicate_text t = (Return (), t')
    ∧ Migration.rows t'
      = map (Migration.with_role (Some "customer")) (Migration.rows t)
    ∧ Forall (λ row, User.role row = Some "customer"
                     ∧ User.is_customer row = false
                     ∧ User.is_admin row = false
                     ∧ User.role_ne_admin row = true) (Migration.rows t')
    ∧ Migration.add_role_column db_URI duplicate_text t' = (Return (), t').
Proof.
  intros Huri Hc. unfold Migration.add_role_column, Migration.add_column.
  rewrite Huri, Hc. eexists. split; [reflexivity|]. cbn.
  split; [done|]. split; [apply lowercase_customer_rows|done].
Qed.

Lemma add_role_column_writes_lowercase_witness :
  ∃ t',
    Migration.add_role_column "postgresql://localhost:5432/ppd"
      Migration.postgres_duplicate_text
      {| Migration.role_column := None; Migration.rows := [legacy_user] |}
    = (Return (), t')
    ∧ Migration.rows t'
      = map (Migration.with_role (Some "customer")) [legacy_user]
    ∧ Forall (λ row, User.role row = Some "customer"
                     ∧ User.is_customer row = false
                     ∧ User.is_admin row = false
                     ∧ User.role_ne_admin row = true) (Migration.rows t')
    ∧ Migration.add_role_column "postgresql://localhost:5432/ppd"
        Migration.postgres_duplicate_text t' = (Return (), t').
Proof.
  apply (add_role_column_writes_lowercase "postgresql://localhost:5432/ppd"
           Migration.postgres_duplicate_text
           {| Migration.role_column := None; Migration.rows := [legacy_user] |});
    reflexivity.
Defined.

Lemma fix_role_column_adds_customer_once_witness :
  ∃ t',
    Migration.fix_role_column
      (Some {| Migration.role_column := None; Migration.rows := [legacy_user] |})
    = (Return (), Some t')
    ∧ Migration.role_column t'
      = Some {| Migration.varchar := 50;
                Migration.default_value := "CUSTOMER";
                Migration.not_null := true |}
    ∧ Migration.rows t'
      = map (Migration.with_role (Some "CUSTOMER")) [legacy_user]
    ∧ Forall (λ row, User.is_customer row = true) (Migration.rows t').
Proof.
  apply (proj1 (proj2 (proj2 (fix_role_column_adds_customer_once
           (Some {| Migration.role_column := None;
                    Migration.rows := [legacy_user] |}))))
           {| Migration.role_column := None; Migration.rows := [legacy_user] |});
    reflexivity.
Defined.

(** * Registration: every failure is a body *)

Section RegistrationBodies.
Context `{Collaborators}.
Import UserSerializers Users.

Lemma create_user_except_body e :
  (∀ code detail, e ≠ HTTPException code detail) →
  ∃ body, create_user_except e = Return body ∧ is_Some (body !! "error").
Proof.
  intros Hhttp. destruct e as [code detail|orig|orig|name msg|name msg];
    [by destruct (Hhttp code detail)|..]; unfold create_user_except;
    repeat match goal with
           | |- context [if ?b then _ else _] => destruct b
           end;
    eexists; (split; [reflexivity|]); by eexists.
Qed.

(** X20. [create_user] does not raise: as long as the password library
    raises no [HTTPException], every registration returns a body, which
    either carries an ["error"] entry or is the success body; a failed
    registration is not an HTTP error. *)
Theorem registration_always_returns_a_body user salt new_id now_exp now_iat
    db concurrent :
  (∀ code detail,
     bcrypt_hash salt (password user) ≠ Raise (HTTPException code detail)) →
  ∃ body,
    (create_user user salt new_id now_exp now_iat db concurrent).1 = Return body
    ∧ (is_Some (body !! "error")
       ∨ body !! "message" = Some (VStr "User created successfully")).
Proof.
  intros Hhttp. unfold create_user.
  destruct (query_username_or_email db _ _) as [eu|].
  { destruct (String.eqb _ _); eexists; (split; [reflexivity|]); left; by eexists. }
  unfold User.set_password, pwd_context_hash.
  destruct (bcrypt_hash salt (password user)) as [hash|e] eqn:Hhash.
  - cbn [User.id User.username User.email User.role User.password_hash].
    unfold Users.add_commit.
    repeat match goal with
           | |- context [if existsb ?f ?l then _ else _] => destruct (existsb f l)
           end; cbn [fst].
    + destruct (create_user_except_body
                  (IntegrityError
                     (pg_error_text (Unique "users" "username" (username user)))))
        as (body & Hbody & Herr); [done|].
      exists body. split; [exact Hbody|by left].
    + destruct (create_user_except_body
                  (IntegrityError
                     (pg_error_text (Unique "users" "email" (email user)))))
        as (body & Hbody & Herr); [done|].
      exists body. split; [exact Hbody|by left].
    + destruct (User.generate_token _ _ _) as [token|e'].
      * destruct (truthy (VStr token)); eexists; (split; [reflexivity|]);
          right; reflexivity.
      * eexists. split; [reflexivity|]. right. reflexivity.
  - cbn [fst].
    destruct (create_user_except_body e) as (body & Hbody & Herr).
    { intros code detail ->. by destruct (Hhttp code detail). }
    exists body. split; [exact Hbody|by left].
Qed.

(** X21. A user whose stored role is null or empty logs in as CUSTOMER:
    when the password is accepted and the token is signed, the login body
    carries the role ["CUSTOMER"], and so does the payload of the token. *)
Theorem login_defaults_role user now_exp now_iat db db_user token :
  query_username db (login_username user) = Some db_user →
  User.role db_user = None ∨ User.role db_user = Some "" →
  User.verify_password db_user (login_password user) = Return true →
  User.generate_token db_user now_exp now_iat = Return token →
  login user now_exp now_iat db
  = Return (dict [ ("token", VStr token);
                   ("message", VStr "Login successful");
                   ("role", VStr "CUSTOMER") ])
  ∧ User.token_payload db_user now_exp now_iat !! "role" = Some (VStr "CUSTOMER").
Proof.
  intros Hq Hrole Hverify Htoken. split.
  - unfold login. rewrite Hq, Hverify, Htoken. by destruct Hrole as [-> | ->].
  - destruct (token_payload_claims db_user now_exp now_iat) as (_ & _ & _ & ->).
    by destruct Hrole as [-> | ->].
Qed.

End RegistrationBodies.

Lemma registration_always_returns_a_body_witness :
  ∃ body,
    (Users.create_user (H := sample_collaborators)
       alice "salt" 2 0 0 [alice_row] []).1 = Return body
    ∧ (is_Some (body !! "error")
       ∨ body !! "message" = Some (VStr "User created successfully")).
Proof.
  apply (registration_always_returns_a_body (H := sample_collaborators)
           alice "salt" 2 0 0 [alice_row] []).
  intros code detail. discriminate.
Defined.

Lemma login_defaults_role_witness :
  Users.login (H := sample_collaborators)
    {| UserSerializers.login_username := "dave";
       UserSerializers.login_password := "pw5" |} 0 0 [legacy_user]
  = Return (dict [
      ("token", VStr "header.1.CUSTOMER.your-secret-key-change-in-production");
      ("message", VStr "Login successful");
      ("role", VStr "CUSTOMER") ])
  ∧ User.token_payload legacy_user 0 0 !! "role" = Some (VStr "CUSTOMER").
Proof.
  apply (login_defaults_role (H := sample_collaborators)
           {| UserSerializers.login_username := "dave";
              UserSerializers.login_password := "pw5" |} 0 0 [legacy_user]
           legacy_user);
    [reflexivity|by left|reflexivity|reflexivity].
Defined.

(** * The bounds of the paginated lists *)

Lemma valid_page limit offset :
  (1 <=? limit) && (limit <=? 100) && (0 <=? offset) = true
  ↔ 1 ≤ limit ≤ 100 ∧ 0 ≤ offset.
Proof. rewrite !andb_true_iff, !Z.leb_le. lia. Qed.

(** X22. The three paginated lists (daily goals of the current user, of a
    given user, and of all users) check the page before anything else: a
    limit below 1 or above 100, or a negative offset, is answered 422
    whoever asks; and a page that is returned holds at most [limit] rows,
    hence at most 100. *)
Theorem paginated_lists_are_bounded current_user limit offset :
  (¬ (1 ≤ limit ≤ 100 ∧ 0 ≤ offset) →
   (∀ goal_date completed search db,
      DailyGoals.get_daily_goals current_user goal_date completed search
        limit offset db = Raise RequestValidationError)
   ∧ (∀ user_id db,
        UserDailyGoals.get_user_daily_goals user_id current_user limit offset db
        = Raise RequestValidationError)
   ∧ (∀ show_completed db,
        AdminLists.get_all_daily_goals_admin current_user show_completed
          limit offset db = Raise RequestValidationError))
  ∧ (∀ goal_date completed search db rows,
       DailyGoals.get_daily_goals current_user goal_date completed search
         limit offset db = Return rows →
       Z.of_nat (length rows) ≤ limit ≤ 100)
  ∧ (∀ user_id db rows,
       UserDailyGoals.get_user_daily_goals user_id current_user limit offset db
       = Return rows →
       Z.of_nat (length rows) ≤ limit ≤ 100)
  ∧ (∀ show_completed db rows,
       AdminLists.get_all_daily_goals_admin current_user show_completed
         limit offset db = Return rows →
       Z.of_nat (length rows) ≤ limit ≤ 100).
Proof.
  unfold DailyGoals.get_daily_goals, UserDailyGoals.get_user_daily_goals,
    AdminLists.get_all_daily_goals_admin.
  pose proof (valid_page limit offset) as Hvalid.
  destruct ((1 <=? limit) && (limit <=? 100) && (0 <=? offset)).
  - assert (Hpage : 1 ≤ limit ≤ 100 ∧ 0 ≤ offset) by (by apply Hvalid).
    split; [by intros []|].
    split; [|split].
    + intros goal_date completed search db rows [= <-].
      split; [apply limit_offset_length|]; lia.
    + intros user_id db rows. destruct (_ && _); [done|]. intros [= <-].
      split; [apply limit_offset_length|]; lia.
    + intros show_completed db rows. destruct (User.role_ne_admin _); [done|].
      intros [= <-]. split; [apply limit_offset_length|]; lia.
  - split; [done|]. repeat split; intros; done.
Qed.

Lemma paginated_lists_are_bounded_witness :
  DailyGoals.get_daily_goals carol None None None 101 0 [carol_goal 1 10 false]
  = Raise RequestValidationError.
Proof.
  apply (proj1 (paginated_lists_are_bounded carol 101 0)). lia.
Defined.
